(** * Readera annotation extractor: a shallow embedding of
      [extract_annotations.py] and the properties of its specification.

    The program is a linear pipeline: load a JSON export, flatten the
    citations of every document into annotation records, then either print
    the records or group them by book and render one PDF per book.

    Python values are modelled as they are at run time:
    - a [str] is a sequence of Unicode code points ([pystr]);
    - the result of [json.load] is a [json] tree whose objects are [dict]s
      in insertion order;
    - exceptions are explicit ([outcome]); printing and the files written
      by the document library are threaded through a [world];
    - what the program cannot decide is a parameter: which characters the
      standard output encodes, which texts the paragraph parser of the
      document library accepts, and whether a build fails. *)

From Stdlib Require Import List ZArith NArith Bool Lia String Ascii.
From Stdlib Require Import Numbers.DecimalString.
Import ListNotations.

Set Implicit Arguments.
#[local] Set Warnings "-register-all".

(* ================================================================== *)
(** ** Python strings *)

(** A code point. [len], slicing and [re] all count code points. *)
Definition char := N.
Definition pystr := list char.

(** A literal of the source, written as an ASCII string. *)
Definition lit (s : string) : pystr :=
  map N_of_ascii (list_ascii_of_string s).

Definition dquote : char := 34%N.

Fixpoint str_eqb (a b : pystr) : bool :=
  match a, b with
  | [], [] => true
  | x :: a', y :: b' => N.eqb x y && str_eqb a' b'
  | _, _ => false
  end.

Fixpoint startswith (s prefix : pystr) {struct prefix} : bool :=
  match prefix, s with
  | [], _ => true
  | p :: prefix', c :: s' => N.eqb p c && startswith s' prefix'
  | _ :: _, [] => false
  end.

(** [sub in s] for two strings. *)
Fixpoint str_contains (s sub : pystr) : bool :=
  startswith s sub ||
  match s with
  | [] => false
  | _ :: s' => str_contains s' sub
  end.

(** [str(n)] for an [int]. *)
Definition str_of_int (n : Z) : pystr :=
  lit (NilZero.string_of_int (Z.to_int n)).

(* ================================================================== *)
(** ** JSON values as [json.load] returns them *)

(** A Python [float] read from a JSON number: a signed zero, an infinity
    (an overflowing literal such as [1e999]) or [(-1)^neg * m * 2^e].
    JSON has no literal for NaN. *)
Inductive pyfloat :=
| FZero (neg : bool)
| FInf (neg : bool)
| FFinite (neg : bool) (m : positive) (e : Z).

(** [JObj items] is a [dict]: [items] lists its entries in insertion order
    and a key is looked up at its first entry ([json.load] keeps one entry
    per key). *)
Inductive json :=
| JNull
| JBool (b : bool)
| JInt (n : Z)
| JFloat (f : pyfloat)
| JStr (s : pystr)
| JArr (l : list json)
| JObj (items : list (pystr * json)).

Definition pydict := list (pystr * json).

Fixpoint dict_get (d : pydict) (key : pystr) : option json :=
  match d with
  | [] => None
  | (k, v) :: d' => if str_eqb k key then Some v else dict_get d' key
  end.

(** [d.get(key, default)] on a dict. *)
Definition dict_get_default (d : pydict) (key : pystr) (default : json) : json :=
  match dict_get d key with
  | Some v => v
  | None => default
  end.

(** Truth value of an object, as tested by [if x] and [not x]. *)
Definition truthy (v : json) : bool :=
  match v with
  | JNull => false
  | JBool b => b
  | JInt n => negb (Z.eqb n 0)
  | JFloat (FZero _) => false
  | JFloat _ => true
  | JStr s => match s with [] => false | _ => true end
  | JArr l => match l with [] => false | _ => true end
  | JObj d => match d with [] => false | _ => true end
  end.

Definition isinstance_list (v : json) : bool :=
  match v with JArr _ => true | _ => false end.

Definition isinstance_str (v : json) : bool :=
  match v with JStr _ => true | _ => false end.

(* ================================================================== *)
(** ** Exceptions *)

Inductive exn :=
| FileNotFoundError
| JSONDecodeError
| TypeError
| AttributeError
| KeyError
| ValueError
| UnicodeEncodeError
| OtherError
| SystemExit (code : Z).

Inductive outcome (A : Type) :=
| Ret (a : A)
| Raise (e : exn).
Arguments Ret {A} a.
Arguments Raise {A} e.

Definition obind {A B} (m : outcome A) (k : A -> outcome B) : outcome B :=
  match m with
  | Ret a => k a
  | Raise e => Raise e
  end.

Declare Scope outcome_scope.
Delimit Scope outcome_scope with outcome.
Notation "'let?' x ':=' m 'in' k" := (obind m (fun x => k))
  (at level 10, x name, m at level 100, k at level 200) : outcome_scope.
Open Scope outcome_scope.

(** [for x in l: acc = body(acc, x)], stopping at the first exception. *)
Fixpoint for_each {A S} (l : list A) (body : S -> A -> outcome S) (acc : S)
  : outcome S :=
  match l with
  | [] => Ret acc
  | x :: l' => let? acc' := body acc x in for_each l' body acc'
  end.

(** [obj.get(key, default)]: only a dict has the method. *)
Definition py_get (obj : json) (key : pystr) (default : json) : outcome json :=
  match obj with
  | JObj d => Ret (dict_get_default d key default)
  | _ => Raise AttributeError
  end.

(** [key in obj] for a string [key]: membership of a key in a dict, of an
    equal element in a list, of a substring in a string; other values are
    not iterable. *)
Definition py_in (key : pystr) (obj : json) : outcome bool :=
  match obj with
  | JObj d => Ret (match dict_get d key with Some _ => true | None => false end)
  | JArr l => Ret (existsb (fun x => match x with
                                    | JStr s => str_eqb key s
                                    | _ => false
                                    end) l)
  | JStr s => Ret (str_contains s key)
  | _ => Raise TypeError
  end.

(** [obj[key]] for a string [key]. *)
Definition py_getitem (obj : json) (key : pystr) : outcome json :=
  match obj with
  | JObj d => match dict_get d key with
              | Some v => Ret v
              | None => Raise KeyError
              end
  | _ => Raise TypeError
  end.

(* ================================================================== *)
(** ** The extractor *)

(** An item of [extracted_data]: a dict with exactly these four keys. *)
Record AnnotationRecord := mkRecord {
  book_name : json;
  page_number : json;
  quote : json;
  annotation : json
}.

(** Lines 41-44: the title of a document. *)
Definition resolve_book_name (doc : json) : outcome json :=
  let? data := py_get doc (lit "data") (JObj []) in
  let? book_name := py_get data (lit "doc_title") JNull in
  if negb (truthy book_name) then
    let? data := py_get doc (lit "data") (JObj []) in
    py_get data (lit "doc_file_name_title") (JStr (lit "Unknown Title"))
  else Ret book_name.

(** Lines 52-63: one citation, appended to [extracted_data] when both the
    quote and the annotation are truthy. *)
Definition extract_citation (book_name : json)
  (extracted_data : list AnnotationRecord) (citation : json)
  : outcome (list AnnotationRecord) :=
  let? page_number := py_get citation (lit "note_page") JNull in
  let? quote := py_get citation (lit "note_body") JNull in
  let? annotation := py_get citation (lit "note_extra") JNull in
  if truthy quote && truthy annotation then
    Ret (extracted_data ++ [mkRecord book_name page_number quote annotation])
  else Ret extracted_data.

(** Lines 41-63: the body of the loop over [data['docs']]. *)
Definition extract_doc (extracted_data : list AnnotationRecord) (doc : json)
  : outcome (list AnnotationRecord) :=
  let? book_name := resolve_book_name doc in
  let? citations := py_get doc (lit "citations") JNull in
  if negb (truthy citations) || negb (isinstance_list citations) then
    Ret extracted_data
  else
    match citations with
    | JArr l => for_each l (extract_citation book_name) extracted_data
    | _ => Ret extracted_data
    end.

(* ================================================================== *)
(** ** Documents handed to the rendering library *)

Inductive para_style := StyleH1Centered | StyleNormal.

(** A table cell: the header row holds plain strings, the data rows hold
    paragraphs. *)
Inductive cell :=
| CellStr (s : pystr)
| CellPara (text : pystr) (style : para_style).

(** Lengths are in points ([inch] is 72). The [TableStyle] of lines
    130-141 is one constant for every table and is not carried. *)
Inductive flowable :=
| Paragraph (text : pystr) (style : para_style)
| Spacer (width height : Z)
| Table (data : list (list cell)) (colWidths : list Z).

(* ================================================================== *)
(** ** Printing and files *)

(** [stdout] holds the argument of every [print] call, in order; [files]
    holds every document that [doc.build] wrote, in order. *)
Record world := mkWorld {
  stdout : list pystr;
  files : list (pystr * list flowable)
}.

Definition M (A : Type) := world -> outcome A * world.

Definition mret {A} (a : A) : M A := fun w => (Ret a, w).

Definition mbind {A B} (m : M A) (k : A -> M B) : M B :=
  fun w => match m w with
           | (Ret a, w') => k a w'
           | (Raise e, w') => (Raise e, w')
           end.

Definition lift {A} (o : outcome A) : M A := fun w => (o, w).

(** Whether the encoding of the standard output can encode a text.
    Every encoding that Python gives to a text stream encodes the ASCII
    characters; [stdout_encodes] tells which other characters it does (a
    lone surrogate, for one, is not encoded by UTF-8). *)
Definition encodable (stdout_encodes : char -> bool) (s : pystr) : bool :=
  forallb (fun c => N.ltb c 128 || stdout_encodes c) s.

(** [print(s)] on an open text stream: the text is encoded before
    anything is written, and [UnicodeEncodeError] is raised when it
    cannot be. *)
Definition print (stdout_encodes : char -> bool) (s : pystr) : M unit :=
  fun w => if encodable stdout_encodes s
           then (Ret tt, mkWorld (stdout w ++ [s]) (files w))
           else (Raise UnicodeEncodeError, w).

Declare Scope io_scope.
Delimit Scope io_scope with io.
Notation "'do' x '<-' m ';' k" := (mbind m (fun x => k))
  (at level 10, x name, m at level 100, k at level 200) : io_scope.
Notation "m ';;' k" := (mbind m (fun _ => k))
  (at level 100, k at level 200, right associativity) : io_scope.
Open Scope io_scope.

(** [for x in l: body(x)] for a body run for its effects. *)
Fixpoint mfor {A} (l : list A) (body : A -> M unit) : M unit :=
  match l with
  | [] => mret tt
  | x :: l' => body x ;; mfor l' body
  end.

(** Line 36: ['docs' not in data or not isinstance(data['docs'], list)]. *)
Definition docs_missing (data : json) : outcome bool :=
  let? present := py_in (lit "docs") data in
  if negb present then Ret true
  else let? docs := py_getitem data (lit "docs") in
       Ret (negb (isinstance_list docs)).

(** Lines 12-65. [load] is what [open] followed by [json.load] does on
    [filepath]: the parsed value or the exception raised. *)
Definition extract_annotations_from_json (stdout_encodes : char -> bool)
  (filepath : pystr) (load : outcome json) : M (list AnnotationRecord) :=
  match load with
  | Raise FileNotFoundError =>
      print stdout_encodes (lit "Error: File not found at " ++ filepath) ;; mret []
  | Raise JSONDecodeError =>
      print stdout_encodes (lit "Error: Could not decode JSON from " ++ filepath) ;; mret []
  | Raise e => lift (Raise e)
  | Ret data =>
      do missing <- lift (docs_missing data);
      if (missing : bool) then
        print stdout_encodes
          (lit "Error: JSON structure is not as expected. Missing 'docs' array.") ;;
        mret []
      else
        do docs <- lift (py_getitem data (lit "docs"));
        match docs with
        | JArr l => lift (for_each l extract_doc [])
        | _ => lift (Raise TypeError)
        end
  end.

(* ================================================================== *)
(** ** File names *)

(** The class of the pattern at line 70: backslash, slash, star, question
    mark, colon, double quote, less than, greater than and bar. *)
Definition illegal_chars : list char :=
  lit "\/*?:" ++ [dquote] ++ lit "<>|".

Definition in_class (cls : list char) (c : char) : bool :=
  existsb (N.eqb c) cls.

(** [re.sub('[...]', repl, s)] for a pattern that is one character class:
    every character of the class is a match and is replaced by [repl]. *)
Definition re_sub_class (cls : list char) (repl s : pystr) : pystr :=
  flat_map (fun c => if in_class cls c then repl else [c]) s.

(** [s.replace(old, new)] for an [old] of one character. *)
Definition str_replace_char (old : char) (new s : pystr) : pystr :=
  flat_map (fun c => if N.eqb c old then new else [c]) s.

Definition space : char := 32%N.

(** Lines 67-75. *)
Definition sanitize_filename (filename : pystr) : pystr :=
  let filename := re_sub_class illegal_chars [] filename in
  let filename := str_replace_char space (lit "_") filename in
  firstn 200 filename.

(** Line 91, the formatted name: [f"{safe_title}_Annotations.pdf"]. *)
Definition pdf_name (book_title : pystr) : pystr :=
  sanitize_filename book_title ++ lit "_Annotations.pdf".

Definition endswith_sep (s : pystr) : bool :=
  match rev s with
  | c :: _ => N.eqb c 47
  | [] => false
  end.

(** [os.path.join(a, b)] with the POSIX separator. *)
Definition os_path_join (a b : pystr) : pystr :=
  if startswith b (lit "/") then b
  else match a with
       | [] => b
       | _ => if endswith_sep a then a ++ b else a ++ lit "/" ++ b
       end.

Definition pdf_filename (base_path book_title : pystr) : pystr :=
  os_path_join base_path (pdf_name book_title).

(* ================================================================== *)
(** ** Grouping by book *)

(** The value under which a [dict] hashes and compares a key: [None], a
    string, or the exact value of a number, so that [True], [1] and [1.0]
    are one key and so are [False], [0], [0.0] and [-0.0]. A non-zero
    finite number is [(-1)^neg * odd * 2^exp] with [odd] odd. *)
Inductive dict_key :=
| KNone
| KStr (s : pystr)
| KZero
| KInf (neg : bool)
| KDyadic (neg : bool) (odd : positive) (exp : Z).

Fixpoint odd_part (p : positive) : positive * Z :=
  match p with
  | xO q => let (o, k) := odd_part q in (o, k + 1)%Z
  | _ => (p, 0%Z)
  end.

Definition key_of_int (n : Z) : dict_key :=
  match n with
  | Z0 => KZero
  | Zpos p => let (o, k) := odd_part p in KDyadic false o k
  | Zneg p => let (o, k) := odd_part p in KDyadic true o k
  end.

Definition key_of_float (f : pyfloat) : dict_key :=
  match f with
  | FZero _ => KZero
  | FInf neg => KInf neg
  | FFinite neg m e => let (o, k) := odd_part m in KDyadic neg o (k + e)%Z
  end.

(** [hash(v)]: lists and dicts are unhashable. *)
Definition key_of (v : json) : outcome dict_key :=
  match v with
  | JNull => Ret KNone
  | JBool b => Ret (key_of_int (Z.b2z b))
  | JInt n => Ret (key_of_int n)
  | JFloat f => Ret (key_of_float f)
  | JStr s => Ret (KStr s)
  | JArr _ | JObj _ => Raise TypeError
  end.

Definition dict_key_eqb (a b : dict_key) : bool :=
  match a, b with
  | KNone, KNone => true
  | KStr s, KStr t => str_eqb s t
  | KZero, KZero => true
  | KInf n, KInf n' => Bool.eqb n n'
  | KDyadic n o e, KDyadic n' o' e' =>
      Bool.eqb n n' && Pos.eqb o o' && Z.eqb e e'
  | _, _ => false
  end.

(** Whether the stored key [stored] is the key [k]. *)
Definition is_key (k : dict_key) (stored : json) : bool :=
  match key_of stored with
  | Ret k' => dict_key_eqb k k'
  | Raise _ => false
  end.

(** [books_data]: a dict from book name to a list of row dicts, in
    insertion order. An entry keeps the key object it was created with. *)
Definition books := list (json * list pydict).

Definition books_contains (books_data : books) (k : dict_key) : bool :=
  existsb (fun entry => is_key k (fst entry)) books_data.

(** [books_data[k].append(row)]. *)
Fixpoint books_append (books_data : books) (k : dict_key) (row : pydict)
  : books :=
  match books_data with
  | [] => []
  | (name, rows) :: rest =>
      if is_key k name then (name, rows ++ [row]) :: rest
      else (name, rows) :: books_append rest k row
  end.

(** Lines 172-176: the row dict kept for the PDF table. *)
Definition row_of (item : AnnotationRecord) : pydict :=
  [ (lit "page_number", page_number item);
    (lit "quote", quote item);
    (lit "annotation", annotation item) ].

(** Lines 167-176: the body of the grouping loop. *)
Definition group_step (books_data : books) (item : AnnotationRecord)
  : outcome books :=
  let book_name := book_name item in
  let? k := key_of book_name in
  let books_data :=
    if negb (books_contains books_data k)
    then books_data ++ [(book_name, [])]
    else books_data in
  Ret (books_append books_data k (row_of item)).

Definition group_by_book (all_annotations_data : list AnnotationRecord)
  : outcome books :=
  for_each all_annotations_data group_step [].

(* ================================================================== *)
(** ** The reporter *)

Section Reporter.

(** The characters beyond ASCII that the standard output encodes. *)
Variable stdout_encodes : char -> bool.

(** [str] on a float, a list or a dict: the interpreter's own formatting. *)
Variable str_other : json -> pystr.

(** Whether the paragraph parser of the document library accepts a text.
    [Paragraph(text, style)] parses the markup of [text] when the object
    is made and raises [ValueError] on text it cannot parse (an unclosed
    tag, for one). *)
Variable markup_ok : pystr -> bool.

(** [str(e)] for the [UnicodeEncodeError] that printing a text raises. *)
Variable str_encode_error : pystr -> pystr.

(** What [doc.build(story)] does for a file name and a story in a given
    world: [None] when the file is written, [Some msg] when it raises an
    exception [e] with [str(e) = msg]. *)
Variable build_error : world -> pystr -> list flowable -> option pystr.

(** [str(v)], also what an f-string substitutes for [{v}]. *)
Definition py_str (v : json) : pystr :=
  match v with
  | JNull => lit "None"
  | JBool true => lit "True"
  | JBool false => lit "False"
  | JInt n => str_of_int n
  | JStr s => s
  | _ => str_other v
  end.

Definition inch : Z := 72%Z.

(** [Paragraph(text, style)] as a flowable of the story. *)
Definition paragraph (text : pystr) (style : para_style) : outcome flowable :=
  if markup_ok text then Ret (Paragraph text style) else Raise ValueError.

(** [Paragraph(text, style)] as a cell of the table. *)
Definition paragraph_cell (text : pystr) (style : para_style) : outcome cell :=
  if markup_ok text then Ret (CellPara text style) else Raise ValueError.

Definition table_header : list cell :=
  [CellStr (lit "Page No."); CellStr (lit "Quote"); CellStr (lit "Annotation")].

(** Lines 113-115: the three texts of an annotation dict. *)
Definition page_str (ann : pydict) : pystr :=
  py_str (dict_get_default ann (lit "page_number") (JStr (lit "N/A"))).

Definition quote_str (ann : pydict) : pystr :=
  py_str (dict_get_default ann (lit "quote") (JStr [])).

Definition annotation_str (ann : pydict) : pystr :=
  py_str (dict_get_default ann (lit "annotation") (JStr [])).

(** Lines 113-121: the table row of one annotation dict, appended to
    [data]. *)
Definition annotation_row (data : list (list cell)) (ann : pydict)
  : outcome (list (list cell)) :=
  let? page_p := paragraph_cell (page_str ann) StyleNormal in
  let? quote_p := paragraph_cell (quote_str ann) StyleNormal in
  let? annotation_p := paragraph_cell (annotation_str ann) StyleNormal in
  Ret (data ++ [[page_p; quote_p; annotation_p]]).

(** Lines 97-142: the story of a book. *)
Definition build_story (book_title : pystr) (book_annotations : list pydict)
  : outcome (list flowable) :=
  let? title_text := paragraph book_title StyleH1Centered in
  let story := [title_text; Spacer 1 (inch / 4)%Z] in
  let? data := for_each book_annotations annotation_row [table_header] in
  if Nat.eqb (List.length data) 1 then
    let? notice :=
      paragraph (lit "No annotations found for this book.") StyleNormal in
    Ret (story ++ [notice])
  else
    Ret (story ++ [Table data [3 * inch / 4; 3 * inch; 3 * inch]%Z]).

Definition error_line (book_title cause : pystr) : pystr :=
  lit "Error generating PDF for " ++ book_title ++ lit ": " ++ cause.

(** Lines 144-148: [doc.build] and the print of the success line inside
    the [try], the print of the error line in the handler. A build that
    raises leaves no file. A success line that cannot be encoded raises
    inside the [try] as well: the handler then prints the error line for
    that exception, after the file was written. An error line that
    cannot be encoded raises out of the handler. *)
Definition build_and_report (book_title pdf_filename : pystr)
  (story : list flowable) : M unit :=
  fun w =>
    match build_error w pdf_filename story with
    | Some cause => print stdout_encodes (error_line book_title cause) w
    | None =>
        let written :=
          mkWorld (stdout w) (files w ++ [(pdf_filename, story)]) in
        let success := lit "Successfully generated PDF: " ++ pdf_filename in
        if encodable stdout_encodes success
        then print stdout_encodes success written
        else print stdout_encodes
               (error_line book_title (str_encode_error success)) written
    end.

(** Lines 77-148. The title is a key of [books_data]; [re.sub] raises
    [TypeError] on a title that is not a string. *)
Definition save_book_to_pdf (book_title : json)
  (book_annotations : list pydict) (base_path : pystr) : M unit :=
  match book_annotations with
  | [] =>
      print stdout_encodes
        (lit "No annotations to save for " ++ py_str book_title ++ lit ".")
  | _ :: _ =>
      match book_title with
      | JStr title =>
          let pdf_filename := pdf_filename base_path title in
          do story <- lift (build_story title book_annotations);
          build_and_report title pdf_filename story
      | _ => lift (Raise TypeError)
      end
  end.

(** Lines 181-182. *)
Definition render_books (books_data : books) : M unit :=
  mfor books_data
       (fun entry => save_book_to_pdf (fst entry) (snd entry) (lit ".")).

(** Lines 187-191: the console block of one record. *)
Definition print_record (item : AnnotationRecord) : M unit :=
  print stdout_encodes (lit "  Book: " ++ py_str (book_name item)) ;;
  print stdout_encodes (lit "  Page: " ++ py_str (page_number item)) ;;
  print stdout_encodes
    (lit "  Quote: " ++ [dquote] ++ py_str (quote item) ++ [dquote]) ;;
  print stdout_encodes
    (lit "  Annotation: " ++ [dquote] ++ py_str (annotation item) ++ [dquote]) ;;
  print stdout_encodes (lit "--------------------").

Definition newline : char := 10%N.

(** Lines 151-191: the program for a path, the [--pdf] flag and what
    loading the file does. *)
Definition main (json_filepath : pystr) (pdf : bool) (load : outcome json)
  : M unit :=
  do all_annotations_data <-
    extract_annotations_from_json stdout_encodes json_filepath load;
  (match all_annotations_data with
   | [] =>
       print stdout_encodes
         (lit "No annotations found or an error occurred while reading the JSON.") ;;
       lift (Raise (SystemExit 0))
   | _ :: _ => mret tt
   end) ;;
  if pdf then
    do books_data <- lift (group_by_book all_annotations_data);
    match books_data with
    | [] => print stdout_encodes (lit "No books found to generate PDFs for.")
    | _ :: _ => render_books books_data
    end
  else
    print stdout_encodes
      ([newline] ++ lit "Extracted Annotations (Console Output):") ;;
    mfor all_annotations_data print_record.

End Reporter.

(** The status with which the interpreter leaves. *)
Definition exit_status (o : outcome unit) : Z :=
  match o with
  | Ret _ => 0
  | Raise (SystemExit code) => code
  | Raise _ => 1
  end.

Definition world0 : world := mkWorld [] [].
(* ================================================================== *)
(** ** The specification's reading of the operations

    Each definition below follows the words of the specification; the
    theorems compare it with the definition taken from the code. *)

Module Spec.

(** *** File names *)

Definition backslash : char := 92%N.
Definition slash : char := 47%N.
Definition star : char := 42%N.
Definition question : char := 63%N.
Definition colon : char := 58%N.
Definition less : char := 60%N.
Definition greater : char := 62%N.
Definition bar : char := 124%N.
Definition underscore : char := 95%N.

(** The characters illegal in a file name. *)
Definition stripped (c : char) : bool :=
  existsb (N.eqb c)
    [backslash; slash; star; question; colon; dquote; less; greater; bar].

Definition strip_illegal (s : pystr) : pystr :=
  filter (fun c => negb (stripped c)) s.

Definition spaces_to_underscores (s : pystr) : pystr :=
  map (fun c => if N.eqb c space then underscore else c) s.

Definition sanitized (title : pystr) : pystr :=
  firstn 200 (spaces_to_underscores (strip_illegal title)).

(** A title that needs no sanitizing. *)
Definition plain_char (c : char) : Prop := stripped c = false /\ c <> space.

Definition plain_title (s : pystr) : Prop :=
  Forall plain_char s /\ (List.length s <= 200)%nat.

(** *** Citations *)

(** The field [key] of a citation is present and non-empty. *)
Definition has_text (citation : pydict) (key : pystr) : bool :=
  match dict_get citation key with
  | Some v => truthy v
  | None => false
  end.

(** Both the quote and the annotation are present and non-empty. *)
Definition complete (citation : pydict) : bool :=
  has_text citation (lit "note_body") && has_text citation (lit "note_extra").

Fixpoint count_complete (citations : list pydict) : nat :=
  match citations with
  | [] => 0
  | c :: rest => (if complete c then 1 else 0) + count_complete rest
  end.

(** An absent field of a citation reads as [None]. *)
Definition field (citation : pydict) (key : pystr) : json :=
  match dict_get citation key with
  | Some v => v
  | None => JNull
  end.

Definition record_of (book : json) (citation : pydict) : AnnotationRecord :=
  mkRecord book (field citation (lit "note_page"))
           (field citation (lit "note_body"))
           (field citation (lit "note_extra")).

(** The [data] field of a document is absent or an object. *)
Definition data_ok (doc : pydict) : Prop :=
  match dict_get doc (lit "data") with
  | None => True
  | Some (JObj _) => True
  | Some _ => False
  end.

(** *** Grouping *)

(** A book name that can be the key of a dict. *)
Definition hashable (v : json) : bool :=
  match v with
  | JArr _ | JObj _ => false
  | _ => true
  end.

(** Two names are the same book when they are the same dict key. *)
Definition same_book (a b : json) : bool :=
  match key_of a, key_of b with
  | Ret x, Ret y => dict_key_eqb x y
  | _, _ => false
  end.

(** The books in the order in which they are first seen. *)
Fixpoint first_seen (names : list json) : list json :=
  match names with
  | [] => []
  | n :: rest => n :: filter (fun m => negb (same_book n m)) (first_seen rest)
  end.

(** The records of one book, in their original order. *)
Definition records_of (book : json) (records : list AnnotationRecord)
  : list AnnotationRecord :=
  filter (fun r => same_book book (book_name r)) records.

Definition grouped (records : list AnnotationRecord) : books :=
  map (fun book => (book, map row_of (records_of book records)))
      (first_seen (map book_name records)).

(** *** Grouping, read without the dict

    The definitions above follow the keys of the dict of the code. Those
    below say the same in the words of the specification alone: names
    are compared as Python compares scalars, and a row holds the page,
    the quote and the annotation of its record. *)

(** The integer that a boolean or an integer stands for. *)
Definition int_value (v : json) : option Z :=
  match v with
  | JBool b => Some (Z.b2z b)
  | JInt n => Some n
  | _ => None
  end.

Definition signed (neg : bool) (m : positive) : Z :=
  if neg then Zneg m else Zpos m.

(** An integer equals a float when it is the exact value of the float. *)
Definition int_equals_float (n : Z) (f : pyfloat) : bool :=
  match f with
  | FZero _ => Z.eqb n 0
  | FInf _ => false
  | FFinite neg m e =>
      if Z.leb 0 e then Z.eqb n (signed neg m * 2 ^ e)
      else Z.eqb (n * 2 ^ (- e)) (signed neg m)
  end.

(** Two floats are equal when their exact values are. *)
Definition float_equals (f g : pyfloat) : bool :=
  match f, g with
  | FZero _, FZero _ => true
  | FInf a, FInf b => Bool.eqb a b
  | FFinite a m e, FFinite b m' e' =>
      Bool.eqb a b &&
      (if Z.leb e e' then Z.eqb (Zpos m) (Zpos m' * 2 ^ (e' - e))
       else Z.eqb (Zpos m * 2 ^ (e - e')) (Zpos m'))
  | _, _ => false
  end.

(** [a == b] for two names: strings are compared as strings, numbers and
    booleans by value, [None] equals itself only. A list or an object is
    never the name of a group. *)
Definition same_name (a b : json) : bool :=
  match a, b with
  | JNull, JNull => true
  | JStr s, JStr t => str_eqb s t
  | JFloat f, JFloat g => float_equals f g
  | JFloat f, _ =>
      match int_value b with
      | Some n => int_equals_float n f
      | None => false
      end
  | _, JFloat g =>
      match int_value a with
      | Some n => int_equals_float n g
      | None => false
      end
  | _, _ =>
      match int_value a, int_value b with
      | Some n, Some m => Z.eqb n m
      | _, _ => false
      end
  end.

(** The names in the order in which they are first seen. *)
Fixpoint names_in_order (names : list json) : list json :=
  match names with
  | [] => []
  | n :: rest =>
      n :: filter (fun m => negb (same_name n m)) (names_in_order rest)
  end.

(** The row of a record in the table of its book. *)
Definition table_row (r : AnnotationRecord) : pydict :=
  [ (lit "page_number", page_number r);
    (lit "quote", quote r);
    (lit "annotation", annotation r) ].

(** The rows of one book: those of its records, in their original
    order. *)
Definition rows_of_book (book : json) (records : list AnnotationRecord)
  : list pydict :=
  map table_row (filter (fun r => same_name book (book_name r)) records).

Definition grouping (records : list AnnotationRecord) : books :=
  map (fun book => (book, rows_of_book book records))
      (names_in_order (map book_name records)).

(** *** Titles that keep their file apart *)

(** A title with none of the stripped characters, no underscore and at
    most 200 characters: nothing is removed or cut, and an underscore of
    the file name can only come from a space. *)
Definition unambiguous_char (c : char) : Prop :=
  stripped c = false /\ c <> underscore.

Definition unambiguous_title (s : pystr) : Prop :=
  Forall unambiguous_char s /\ (List.length s <= 200)%nat.

End Spec.

(* ================================================================== *)
(** ** Sample data for the examples *)

Definition sample_citations : list pydict :=
  [ [(lit "note_page", JInt 5); (lit "note_body", JStr (lit "Q"));
     (lit "note_extra", JStr (lit "A"))];
    [(lit "note_body", JStr (lit "only a quote"))];
    [(lit "note_body", JStr (lit "Q2")); (lit "note_extra", JStr (lit "A2"))] ].

Definition sample_doc : pydict :=
  [ (lit "data", JObj [(lit "doc_title", JStr (lit "T"))]);
    (lit "citations", JArr (map JObj sample_citations)) ].


(** A formatting of floats and containers, for the examples. *)
Definition sample_str_other : json -> pystr := fun _ => lit "?".

(** A build that fails for the book [A] only. *)
Definition sample_build_error (w : world) (file : pystr)
  (story : list flowable) : option pystr :=
  if str_eqb file (lit "./A_Annotations.pdf") then Some (lit "disk full")
  else None.

Definition sample_row : pydict :=
  [ (lit "page_number", JInt 5); (lit "quote", JStr (lit "Q"));
    (lit "annotation", JStr (lit "A")) ].

Definition sample_books : books :=
  [ (JStr (lit "A"), [sample_row]); (JStr (lit "B"), [sample_row]) ].

Definition build_always (w : world) (file : pystr) (story : list flowable)
  : option pystr := None.

Definition sample_citation_no_page : pydict :=
  [ (lit "note_body", JStr (lit "Q")); (lit "note_extra", JStr (lit "A")) ].

(** The outcome of [main] when extraction yields nothing: the message of
    the extractor, the notice of line 161 and [sys.exit(0)]. *)
Definition no_annotations_exit (w : world) (message : pystr)
  : outcome unit * world :=
  (Raise (SystemExit 0),
   mkWorld (stdout w ++ [message;
      lit "No annotations found or an error occurred while reading the JSON."])
     (files w)).

Definition sample_records : list AnnotationRecord :=
  [ mkRecord (JStr (lit "B")) (JInt 1) (JStr (lit "q1")) (JStr (lit "a1"));
    mkRecord (JStr (lit "A")) JNull (JStr (lit "q2")) (JStr (lit "a2"));
    mkRecord (JStr (lit "B")) (JInt 3) (JStr (lit "q3")) (JStr (lit "a3")) ].

(** The input of the end-to-end example of the specification. *)
Definition sample_export : json :=
  JObj [ (lit "docs",
          JArr [ JObj [ (lit "data", JObj [(lit "doc_title", JStr (lit "T"))]);
                        (lit "citations",
                         JArr [ JObj [ (lit "note_page", JInt 5);
                                       (lit "note_body", JStr (lit "Q"));
                                       (lit "note_extra", JStr (lit "A")) ] ]) ] ]) ].


(** A row whose quote holds an unclosed tag. *)
Definition sample_row_markup : pydict :=
  [ (lit "page_number", JInt 7);
    (lit "quote", JStr (lit "Use <b> for bold"));
    (lit "annotation", JStr (lit "A")) ].
(* ================================================================== *)
(** ** Further readings of the code *)

Module Reading.

(** The loop of lines 40-63 over a list of documents. *)
Definition extract_docs (docs : list json) : outcome (list AnnotationRecord) :=
  for_each docs extract_doc [].

(** Both texts of a record are non-empty. *)
Definition has_texts (r : AnnotationRecord) : Prop :=
  truthy (quote r) = true /\ truthy (annotation r) = true.

(** The citations of a document are a non-empty list. *)
Definition has_citations (doc : pydict) : Prop :=
  exists c cs, dict_get doc (lit "citations") = Some (JArr (c :: cs)).

(** The file-name title of a document is there and is falsy. *)
Definition empty_file_title (doc : pydict) : Prop :=
  exists data v,
    dict_get doc (lit "data") = Some (JObj data) /\
    dict_get data (lit "doc_file_name_title") = Some v /\
    truthy v = false.

(** What loading can do that the extractor answers with a message. *)
Definition input_error (load : outcome json) : Prop :=
  load = Raise FileNotFoundError \/
  load = Raise JSONDecodeError \/
  exists d, load = Ret (JObj d) /\
            forall l, dict_get d (lit "docs") <> Some (JArr l).

(** The message that the extractor prints for an input error. *)
Definition error_message (path : pystr) (load : outcome json) : pystr :=
  match load with
  | Raise FileNotFoundError => lit "Error: File not found at " ++ path
  | Raise JSONDecodeError => lit "Error: Could not decode JSON from " ++ path
  | _ => lit "Error: JSON structure is not as expected. Missing 'docs' array."
  end.

(** A loop body that only appends to its accumulator, the same items
    whatever the accumulator holds. *)
Definition appends {A R} (body : list R -> A -> outcome (list R)) : Prop :=
  forall acc x,
    match body acc x with
    | Ret res => exists p, res = acc ++ p /\
                           forall acc', body acc' x = Ret (acc' ++ p)
    | Raise e => forall acc', body acc' x = Raise e
    end.

(** The number of rows held by the grouped map. *)
Definition total_rows (books_data : books) : nat :=
  list_sum (map (fun entry => List.length (snd entry)) books_data).

(** The five lines that the console mode prints for a record. *)
Definition record_lines (str_other : json -> pystr) (item : AnnotationRecord)
  : list pystr :=
  [ lit "  Book: " ++ py_str str_other (book_name item);
    lit "  Page: " ++ py_str str_other (page_number item);
    lit "  Quote: " ++ [dquote] ++ py_str str_other (quote item) ++ [dquote];
    lit "  Annotation: " ++ [dquote] ++ py_str str_other (annotation item)
      ++ [dquote];
    lit "--------------------" ].

(** The text of a title that is a string. *)
Definition title_text (book_title : json) : pystr :=
  match book_title with
  | JStr s => s
  | _ => []
  end.

(** The cells of the row of an annotation dict. *)
Definition row_cells (str_other : json -> pystr) (ann : pydict) : list cell :=
  [ CellPara (page_str str_other ann) StyleNormal;
    CellPara (quote_str str_other ann) StyleNormal;
    CellPara (annotation_str str_other ann) StyleNormal ].

(** The texts that the story of a book hands to [Paragraph], in the
    order in which the paragraphs are made. *)
Definition story_texts (str_other : json -> pystr) (book_title : pystr)
  (book_annotations : list pydict) : list pystr :=
  book_title
  :: flat_map (fun ann => [ page_str str_other ann;
                            quote_str str_other ann;
                            annotation_str str_other ann ])
              book_annotations.

(** The lines that are printed before the first one that the standard
    output cannot encode. *)
Fixpoint printed_lines (stdout_encodes : char -> bool) (lines : list pystr)
  : list pystr :=
  match lines with
  | [] => []
  | l :: rest =>
      if encodable stdout_encodes l
      then l :: printed_lines stdout_encodes rest
      else []
  end.

(** The document of a book of the grouped map: its file and its story,
    the title, a spacer and the table of its rows. *)
Definition document_of (str_other : json -> pystr) (base_path : pystr)
  (entry : json * list pydict) : pystr * list flowable :=
  (pdf_filename base_path (title_text (fst entry)),
   [ Paragraph (title_text (fst entry)) StyleH1Centered;
     Spacer 1 18;
     Table (table_header :: map (row_cells str_other) (snd entry))
           [54; 216; 216]%Z ]).

Definition success_line (entry : json * list pydict) : pystr :=
  lit "Successfully generated PDF: "
  ++ pdf_filename (lit ".") (title_text (fst entry)).

(** A book of the grouped map with a string title and at least one row. *)
Definition renderable (entry : json * list pydict) : Prop :=
  isinstance_str (fst entry) = true /\ snd entry <> [].

(** A book whose story the library accepts and whose success line the
    standard output can encode. *)
Definition presentable (stdout_encodes : char -> bool)
  (str_other : json -> pystr) (markup_ok : pystr -> bool)
  (entry : json * list pydict) : Prop :=
  Forall (fun text => markup_ok text = true)
         (story_texts str_other (title_text (fst entry)) (snd entry)) /\
  encodable stdout_encodes (success_line entry) = true.

(** What the console mode has to print for the records: the heading and
    the five lines of every record. *)
Definition console_lines (str_other : json -> pystr)
  (records : list AnnotationRecord) : list pystr :=
  ([newline] ++ lit "Extracted Annotations (Console Output):")
  :: flat_map (record_lines str_other) records.

End Reading.

(** A standard output in UTF-8: every character but the surrogates. *)
Definition sample_encodes : char -> bool :=
  fun c => N.ltb c 55296 || N.ltb 57343 c.

(** A paragraph parser that rejects an opening bold tag left unclosed,
    here every text that holds the tag. *)
Definition sample_markup_ok : pystr -> bool :=
  fun s => negb (str_contains s (lit "<b>")).

Definition sample_str_encode_error : pystr -> pystr :=
  fun _ => lit "surrogates not allowed".

(** Two books; the quote of the first holds an unclosed tag. *)
Definition sample_books_markup : books :=
  [ (JStr (lit "A"), [sample_row_markup]); (JStr (lit "B"), [sample_row]) ].

Definition sample_docs_one : list json := [JObj sample_doc].

Definition sample_docs_two : list json :=
  [ JObj [ (lit "data", JObj [(lit "doc_file_name_title", JStr (lit "F"))]);
           (lit "citations", JArr (map JObj sample_citations)) ] ].

Definition sample_doc_no_citations : pydict :=
  [ (lit "data", JObj [(lit "doc_title", JStr (lit "T"))]) ].

Definition sample_export_bad_doc : pydict :=
  [ (lit "docs", JArr (sample_docs_one ++ JStr (lit "oops") :: sample_docs_two)) ].

Definition sample_doc_bad_citation : pydict :=
  [ (lit "citations", JArr (map JObj sample_citations ++ JNull :: [])) ].

Definition sample_doc_null_data : pydict := [ (lit "data", JNull) ].

Definition sample_export_no_records : pydict :=
  [ (lit "docs", JArr [JObj sample_doc_no_citations]) ].

(** A title of 200 letters. *)
Definition sample_long_title : pystr := repeat 97%N 200.

Definition sample_records_unhashable : list AnnotationRecord :=
  [ mkRecord (JStr (lit "B")) (JInt 1) (JStr (lit "q1")) (JStr (lit "a1"));
    mkRecord (JArr [JStr (lit "A")]) JNull (JStr (lit "q2")) (JStr (lit "a2")) ].

Definition sample_record : AnnotationRecord :=
  mkRecord (JStr (lit "T")) (JInt 5) (JStr (lit "Q")) (JStr (lit "A")).

(** An export whose only document has a list as its title. *)
Definition sample_export_list_title : json :=
  JObj [ (lit "docs",
          JArr [ JObj [ (lit "data",
                         JObj [(lit "doc_title", JArr [JStr (lit "A")])]);
                        (lit "citations", JArr (map JObj sample_citations)) ] ]) ].


(** An export whose quote holds a lone surrogate. *)
Definition sample_export_surrogate : json :=
  JObj [ (lit "docs",
          JArr [ JObj [ (lit "data", JObj [(lit "doc_title", JStr (lit "T"))]);
                        (lit "citations",
                         JArr [ JObj [ (lit "note_page", JInt 5);
                                       (lit "note_body", JStr [55357%N]);
                                       (lit "note_extra", JStr (lit "A")) ] ]) ] ]) ].
(* ================================================================== *)
(** * Properties *)

(** ** Strings *)

Lemma str_eqb_eq (a b : pystr) : str_eqb a b = true <-> a = b.
Proof.
  revert b; induction a as [|x a IH]; intros [|y b]; simpl;
    try (split; [discriminate | discriminate]); try tauto.
  rewrite andb_true_iff, N.eqb_eq, IH.
  split; [intros [-> ->]; reflexivity | intros [= -> ->]; auto].
Qed.

Lemma str_eqb_refl (a : pystr) : str_eqb a a = true.
Proof. apply str_eqb_eq; reflexivity. Qed.

Lemma str_eqb_neq (a b : pystr) : str_eqb a b = false <-> a <> b.
Proof.
  rewrite <- str_eqb_eq. destruct (str_eqb a b); split; congruence.
Qed.

Lemma firstn_incl {A} (n : nat) (l : list A) (x : A) :
  In x (firstn n l) -> In x l.
Proof.
  intro H. rewrite <- (firstn_skipn n l). apply in_or_app. left. exact H.
Qed.

(** ** File names *)

Section FileNames.

Import Spec.

Lemma re_sub_class_delete (cls : list char) (s : pystr) :
  re_sub_class cls [] s = filter (fun c => negb (in_class cls c)) s.
Proof.
  unfold re_sub_class.
  induction s as [|c s IH]; simpl; [reflexivity|].
  destruct (in_class cls c); simpl; rewrite IH; reflexivity.
Qed.

Lemma str_replace_char_one (old new : char) (s : pystr) :
  str_replace_char old [new] s = map (fun c => if N.eqb c old then new else c) s.
Proof.
  unfold str_replace_char.
  induction s as [|c s IH]; simpl; [reflexivity|].
  rewrite IH. destruct (N.eqb c old); reflexivity.
Qed.

(** The class of the pattern is the set of characters of the
    specification. *)
Lemma illegal_chars_stripped (c : char) :
  in_class illegal_chars c = stripped c.
Proof. reflexivity. Qed.

Lemma sanitize_filename_sanitized (s : pystr) :
  sanitize_filename s = sanitized s.
Proof.
  unfold sanitize_filename, sanitized, spaces_to_underscores, strip_illegal.
  rewrite re_sub_class_delete.
  change (lit "_") with [underscore].
  rewrite str_replace_char_one. reflexivity.
Qed.

Lemma sanitized_plain_chars (s : pystr) : Forall plain_char (sanitized s).
Proof.
  unfold sanitized. apply Forall_forall. intros c Hc.
  apply firstn_incl in Hc.
  unfold spaces_to_underscores in Hc. apply in_map_iff in Hc.
  destruct Hc as [d [Hd Hin]].
  unfold strip_illegal in Hin. apply filter_In in Hin.
  destruct Hin as [_ Hs]. apply negb_true_iff in Hs.
  destruct (N.eqb d space) eqn:E; subst c.
  - split; [reflexivity | discriminate].
  - split; [exact Hs | apply N.eqb_neq; exact E].
Qed.

Lemma sanitized_length (s : pystr) : (List.length (sanitized s) <= 200)%nat.
Proof. unfold sanitized. apply firstn_le_length. Qed.

Lemma sanitized_fixes_plain (s : pystr) : plain_title s -> sanitized s = s.
Proof.
  intros [Hc Hl]. unfold sanitized.
  assert (Hstrip : strip_illegal s = s).
  { clear Hl. unfold strip_illegal.
    induction Hc as [|c s [Hs _] _ IH]; simpl; [reflexivity|].
    rewrite Hs; simpl. rewrite IH. reflexivity. }
  assert (Hmap : spaces_to_underscores s = s).
  { clear Hl Hstrip. unfold spaces_to_underscores.
    induction Hc as [|c s [_ Hsp] _ IH]; simpl; [reflexivity|].
    apply N.eqb_neq in Hsp. rewrite Hsp, IH. reflexivity. }
  rewrite Hstrip, Hmap. apply firstn_all2. exact Hl.
Qed.

Lemma pdf_name_inj_sanitized (t1 t2 : pystr) :
  pdf_name t1 = pdf_name t2 <-> sanitize_filename t1 = sanitize_filename t2.
Proof.
  unfold pdf_name. split.
  - apply app_inv_tail.
  - intros ->. reflexivity.
Qed.

(** The formatted name never starts with a separator, so joining it to
    the default base path only prefixes it. *)
Lemma pdf_name_not_absolute (t : pystr) :
  startswith (pdf_name t) (lit "/") = false.
Proof.
  unfold pdf_name. rewrite sanitize_filename_sanitized.
  pose proof (sanitized_plain_chars t) as H.
  destruct (sanitized t) as [|c s]; [reflexivity|].
  inversion H as [|? ? [Hc _] _]; subst.
  change (startswith ((c :: s) ++ lit "_Annotations.pdf") (lit "/"))
    with (N.eqb 47 c && true).
  destruct (N.eqb_spec 47 c) as [E|E]; [|reflexivity].
  subst c. discriminate Hc.
Qed.

Lemma pdf_filename_here (t : pystr) :
  pdf_filename (lit ".") t = lit "./" ++ pdf_name t.
Proof.
  unfold pdf_filename, os_path_join.
  rewrite pdf_name_not_absolute. reflexivity.
Qed.

(** C6: the file name of a title is the title without the characters
    illegal in file names, with every space turned into an underscore,
    cut to at most 200 characters and followed by [_Annotations.pdf]; the
    title [My/Book Title] gives [MyBook_Title_Annotations.pdf]. *)
Theorem pdf_name_follows_spec :
  (forall title : pystr,
     pdf_name title
     = firstn 200 (spaces_to_underscores (strip_illegal title))
       ++ lit "_Annotations.pdf") /\
  (forall title : pystr, (List.length (sanitize_filename title) <= 200)%nat) /\
  pdf_name (lit "My/Book Title") = lit "MyBook_Title_Annotations.pdf".
Proof.
  split; [|split].
  - intro title. unfold pdf_name.
    rewrite sanitize_filename_sanitized. reflexivity.
  - intro title. rewrite sanitize_filename_sanitized. apply sanitized_length.
  - vm_compute. reflexivity.
Qed.

(** C10: sanitizing is idempotent; its result holds no illegal character
    and no space and has at most 200 characters. *)
Theorem sanitize_filename_idempotent (s : pystr) :
  sanitize_filename (sanitize_filename s) = sanitize_filename s /\
  Forall (fun c => stripped c = false /\ c <> space) (sanitize_filename s) /\
  (List.length (sanitize_filename s) <= 200)%nat.
Proof.
  rewrite !sanitize_filename_sanitized.
  split; [|split].
  - apply sanitized_fixes_plain.
    split; [apply sanitized_plain_chars | apply sanitized_length].
  - apply sanitized_plain_chars.
  - apply sanitized_length.
Qed.

(** C8, as the claim states it, fails: the titles [A/B] and [AB] are
    distinct and are written to the same file. *)
Lemma pdf_filename_collision :
  ~ (forall t1 t2 : pystr,
       t1 <> t2 -> pdf_filename (lit ".") t1 <> pdf_filename (lit ".") t2).
Proof.
  intro H. apply (H (lit "A/B") (lit "AB")).
  - discriminate.
  - vm_compute. reflexivity.
Qed.

Lemma spaces_to_underscores_inj (s t : pystr) :
  Forall unambiguous_char s -> Forall unambiguous_char t ->
  spaces_to_underscores s = spaces_to_underscores t -> s = t.
Proof.
  intro Hs. revert t.
  induction Hs as [|c s [_ Hc] _ IH]; intros t Ht E.
  - destruct t; [reflexivity | discriminate E].
  - destruct Ht as [|d t [_ Hd] Ht]; [discriminate E|].
    simpl in E. injection E as Ecd Est.
    f_equal; [|exact (IH t Ht Est)].
    destruct (N.eqb_spec c space) as [-> | _];
      destruct (N.eqb_spec d space) as [-> | _]; congruence.
Qed.

Lemma sanitized_unambiguous (s : pystr) :
  unambiguous_title s -> sanitized s = spaces_to_underscores s.
Proof.
  intros [Hc Hl]. unfold sanitized.
  assert (Hstrip : strip_illegal s = s).
  { clear Hl. unfold strip_illegal.
    induction Hc as [|c s [Hs _] _ IH]; simpl; [reflexivity|].
    rewrite Hs; simpl. rewrite IH. reflexivity. }
  rewrite Hstrip. apply firstn_all2.
  unfold spaces_to_underscores. rewrite length_map. exact Hl.
Qed.

(** C8, amended: two titles are written to the same file exactly when
    their sanitized forms are equal; so two distinct titles with none of
    the stripped characters, no underscore and at most 200 characters
    (spaces allowed) are written to distinct files. *)
Theorem pdf_filename_distinct_titles (t1 t2 : pystr) :
  (pdf_filename (lit ".") t1 = pdf_filename (lit ".") t2
   <-> sanitized t1 = sanitized t2) /\
  (unambiguous_title t1 -> unambiguous_title t2 -> t1 <> t2 ->
   pdf_filename (lit ".") t1 <> pdf_filename (lit ".") t2).
Proof.
  assert (Hiff : pdf_filename (lit ".") t1 = pdf_filename (lit ".") t2
                 <-> sanitized t1 = sanitized t2).
  { rewrite !pdf_filename_here, <- !sanitize_filename_sanitized,
      <- pdf_name_inj_sanitized.
    split; [apply app_inv_head | intros ->; reflexivity]. }
  split; [exact Hiff|].
  intros H1 H2 Hne E. apply Hiff in E.
  rewrite (sanitized_unambiguous H1), (sanitized_unambiguous H2) in E.
  apply Hne. destruct H1 as [H1 _], H2 as [H2 _].
  exact (spaces_to_underscores_inj H1 H2 E).
Qed.

Lemma unambiguous_title_decide (s : pystr) :
  forallb (fun c => negb (stripped c) && negb (N.eqb c underscore)) s = true ->
  Nat.leb (List.length s) 200 = true ->
  unambiguous_title s.
Proof.
  intros Hc Hl. split.
  - apply Forall_forall. intros c Hin.
    rewrite forallb_forall in Hc. specialize (Hc c Hin).
    apply andb_true_iff in Hc. destruct Hc as [Ha Hb].
    apply negb_true_iff in Ha, Hb. split; [exact Ha | apply N.eqb_neq; exact Hb].
  - apply Nat.leb_le. exact Hl.
Qed.

Lemma pdf_filename_distinct_titles_witness :
  pdf_filename (lit ".") (lit "War and Peace")
  <> pdf_filename (lit ".") (lit "War and Peas").
Proof.
  apply (proj2 (pdf_filename_distinct_titles (lit "War and Peace")
                  (lit "War and Peas"))).
  - apply unambiguous_title_decide; reflexivity.
  - apply unambiguous_title_decide; reflexivity.
  - discriminate.
Defined.

End FileNames.

(** ** The extractor *)

Section Extractor.

Import Spec.

Lemma for_each_snoc {A S} (body : S -> A -> outcome S) (l : list A) (x : A)
  (acc : S) :
  for_each (l ++ [x]) body acc
  = let? acc' := for_each l body acc in body acc' x.
Proof.
  revert acc. induction l as [|y l IH]; intro acc; simpl.
  - destruct (body acc x); reflexivity.
  - destruct (body acc y) as [acc'|e]; simpl; [apply IH | reflexivity].
Qed.

Lemma truthy_field (c : pydict) (key : pystr) :
  truthy (dict_get_default c key JNull) = has_text c key.
Proof.
  unfold dict_get_default, has_text. destruct (dict_get c key); reflexivity.
Qed.

Lemma dict_get_default_field (c : pydict) (key : pystr) :
  dict_get_default c key JNull = field c key.
Proof. reflexivity. Qed.

(** What the code does with one citation that is an object. *)
Lemma extract_citation_dict (book : json) (acc : list AnnotationRecord)
  (c : pydict) :
  extract_citation book acc (JObj c)
  = Ret (if complete c then acc ++ [record_of book c] else acc).
Proof.
  unfold extract_citation, py_get, obind.
  rewrite !truthy_field, !dict_get_default_field.
  fold (complete c). destruct (complete c); reflexivity.
Qed.

Lemma extract_citations_dicts (book : json) (cs : list pydict)
  (acc : list AnnotationRecord) :
  for_each (map JObj cs) (extract_citation book) acc
  = Ret (acc ++ map (record_of book) (filter complete cs)).
Proof.
  revert acc. induction cs as [|c cs IH]; intro acc; simpl.
  - rewrite app_nil_r. reflexivity.
  - rewrite extract_citation_dict. simpl.
    destruct (complete c); rewrite IH; simpl.
    + rewrite <- app_assoc. reflexivity.
    + reflexivity.
Qed.

Lemma count_complete_filter (cs : list pydict) :
  List.length (filter complete cs) = count_complete cs.
Proof.
  induction cs as [|c cs IH]; simpl; [reflexivity|].
  destruct (complete c); simpl; rewrite IH; reflexivity.
Qed.

Lemma has_text_truthy (c : pydict) (key : pystr) :
  has_text c key = true -> truthy (field c key) = true.
Proof.
  unfold has_text, field. destruct (dict_get c key); [auto | discriminate].
Qed.

(** What the code resolves as the name of a document whose [data] is an
    object: the title when it is truthy, else the file-name title when
    the key is there (whatever its value), else the default. *)
Lemma resolve_book_name_data (doc data : pydict) :
  dict_get doc (lit "data") = Some (JObj data) ->
  resolve_book_name (JObj doc)
  = Ret (if truthy (field data (lit "doc_title"))
         then field data (lit "doc_title")
         else match dict_get data (lit "doc_file_name_title") with
              | Some v => v
              | None => JStr (lit "Unknown Title")
              end).
Proof.
  intro H. unfold resolve_book_name, py_get, dict_get_default, obind.
  rewrite H. unfold field.
  destruct (dict_get data (lit "doc_title")) as [v|]; simpl.
  - destruct (truthy v); reflexivity.
  - reflexivity.
Qed.

Lemma resolve_book_name_no_data (doc : pydict) :
  dict_get doc (lit "data") = None ->
  resolve_book_name (JObj doc) = Ret (JStr (lit "Unknown Title")).
Proof.
  intro H. unfold resolve_book_name, py_get, dict_get_default, obind.
  rewrite H. reflexivity.
Qed.

Lemma resolve_book_name_total (doc : pydict) :
  data_ok doc -> exists book, resolve_book_name (JObj doc) = Ret book.
Proof.
  unfold data_ok. intro H.
  destruct (dict_get doc (lit "data")) as [v|] eqn:E.
  - destruct v; try contradiction.
    eexists. apply resolve_book_name_data. exact E.
  - eexists. apply resolve_book_name_no_data. exact E.
Qed.

(** C1 fails on the code: with both titles present and empty the name is
    the empty string, not the default. *)
Theorem resolve_book_name_empty_titles :
  resolve_book_name
    (JObj [(lit "data", JObj [(lit "doc_title", JStr []);
                              (lit "doc_file_name_title", JStr [])])])
  = Ret (JStr []) /\
  JStr [] <> JStr (lit "Unknown Title").
Proof. split; [reflexivity | discriminate]. Qed.

(** C4: a document whose citations list holds objects of which exactly
    [K] have both the quote and the annotation present and non-empty adds
    exactly [K] records, those of the complete citations in their order,
    and each has a non-empty quote and annotation. *)
Theorem extract_doc_complete_citations (doc : pydict) (cs : list pydict)
  (acc : list AnnotationRecord) (K : nat)
  (Hdata : data_ok doc)
  (Hcit : dict_get doc (lit "citations") = Some (JArr (map JObj cs)))
  (HK : count_complete cs = K) :
  exists (book : json) (produced : list AnnotationRecord),
    resolve_book_name (JObj doc) = Ret book /\
    extract_doc acc (JObj doc) = Ret (acc ++ produced) /\
    produced = map (record_of book) (filter complete cs) /\
    List.length produced = K /\
    Forall (fun r => book_name r = book /\
                     truthy (quote r) = true /\
                     truthy (annotation r) = true) produced.
Proof.
  destruct (resolve_book_name_total doc Hdata) as [book Hbook].
  exists book, (map (record_of book) (filter complete cs)).
  split; [exact Hbook|]. split; [|split; [reflexivity|split]].
  - unfold extract_doc. rewrite Hbook. simpl.
    unfold dict_get_default. rewrite Hcit.
    destruct cs as [|c cs]; simpl.
    + rewrite app_nil_r. reflexivity.
    + apply (extract_citations_dicts book (c :: cs) acc).
  - rewrite length_map, count_complete_filter. exact HK.
  - apply Forall_forall. intros r Hr.
    apply in_map_iff in Hr. destruct Hr as [c [<- Hc]].
    apply filter_In in Hc. destruct Hc as [_ Hc].
    unfold complete in Hc. apply andb_true_iff in Hc. destruct Hc as [Hq Ha].
    simpl. split; [reflexivity|].
    split; apply has_text_truthy; assumption.
Qed.

Lemma extract_doc_complete_citations_witness :
  exists (book : json) (produced : list AnnotationRecord),
    resolve_book_name (JObj sample_doc) = Ret book /\
    extract_doc [] (JObj sample_doc) = Ret ([] ++ produced) /\
    produced = map (record_of book) (filter complete sample_citations) /\
    List.length produced = 2 /\
    Forall (fun r => book_name r = book /\
                     truthy (quote r) = true /\
                     truthy (annotation r) = true) produced.
Proof.
  apply (@extract_doc_complete_citations sample_doc sample_citations [] 2).
  - exact I.
  - reflexivity.
  - reflexivity.
Defined.

End Extractor.

(** ** Printing *)

Section Printing.

Variable stdout_encodes : char -> bool.

Lemma encodable_app (a b : pystr) :
  encodable stdout_encodes (a ++ b)
  = encodable stdout_encodes a && encodable stdout_encodes b.
Proof. unfold encodable. apply forallb_app. Qed.

Lemma encodable_ascii (s : pystr) :
  forallb (fun c => N.ltb c 128) s = true -> encodable stdout_encodes s = true.
Proof.
  unfold encodable. rewrite !forallb_forall. intros H c Hc.
  rewrite (H c Hc). reflexivity.
Qed.

Lemma print_encodable (s : pystr) (w : world) :
  encodable stdout_encodes s = true ->
  print stdout_encodes s w = (Ret tt, mkWorld (stdout w ++ [s]) (files w)).
Proof. intro H. unfold print. rewrite H. reflexivity. Qed.

Lemma print_unencodable (s : pystr) (w : world) :
  encodable stdout_encodes s = false ->
  print stdout_encodes s w = (Raise UnicodeEncodeError, w).
Proof. intro H. unfold print. rewrite H. reflexivity. Qed.

(** Printing lines one after the other stops at the first line that
    cannot be encoded. *)
Lemma print_lines (lines : list pystr) (w : world) :
  mfor lines (print stdout_encodes) w
  = (if forallb (encodable stdout_encodes) lines
     then Ret tt else Raise UnicodeEncodeError,
     mkWorld (stdout w ++ Reading.printed_lines stdout_encodes lines) (files w)).
Proof.
  revert w. induction lines as [|l rest IH]; intro w.
  - simpl. rewrite app_nil_r. destruct w; reflexivity.
  - cbn [mfor forallb Reading.printed_lines]. unfold mbind, print.
    destruct (encodable stdout_encodes l); cbn [andb].
    + rewrite IH. cbn [stdout files]. rewrite <- app_assoc. reflexivity.
    + rewrite app_nil_r. destruct w; reflexivity.
Qed.

End Printing.

(** ** The reporter *)

Section ReporterProperties.

Import Spec.

Variable stdout_encodes : char -> bool.
Variable str_other : json -> pystr.
Variable markup_ok : pystr -> bool.
Variable str_encode_error : pystr -> pystr.
Variable build_error : world -> pystr -> list flowable -> option pystr.

(** *** Input errors *)

Lemma main_missing_file (path : pystr) (pdf : bool) (w : world) :
  encodable stdout_encodes path = true ->
  main stdout_encodes str_other markup_ok str_encode_error build_error path pdf (Raise FileNotFoundError) w
  = no_annotations_exit w (lit "Error: File not found at " ++ path).
Proof.
  intro H.
  assert (Hm : encodable stdout_encodes
                 (lit "Error: File not found at " ++ path) = true).
  { rewrite encodable_app, H. reflexivity. }
  unfold main, mbind, no_annotations_exit, extract_annotations_from_json.
  unfold mbind. rewrite (print_encodable _ _ w Hm). cbn [mret].
  rewrite print_encodable by (apply encodable_ascii; reflexivity).
  cbn [stdout files lift]. rewrite <- app_assoc. reflexivity.
Qed.

Lemma main_invalid_json (path : pystr) (pdf : bool) (w : world) :
  encodable stdout_encodes path = true ->
  main stdout_encodes str_other markup_ok str_encode_error build_error path pdf (Raise JSONDecodeError) w
  = no_annotations_exit w (lit "Error: Could not decode JSON from " ++ path).
Proof.
  intro H.
  assert (Hm : encodable stdout_encodes
                 (lit "Error: Could not decode JSON from " ++ path) = true).
  { rewrite encodable_app, H. reflexivity. }
  unfold main, mbind, no_annotations_exit, extract_annotations_from_json.
  unfold mbind. rewrite (print_encodable _ _ w Hm). cbn [mret].
  rewrite print_encodable by (apply encodable_ascii; reflexivity).
  cbn [stdout files lift]. rewrite <- app_assoc. reflexivity.
Qed.

(** A parsed value on which the test of line 36 succeeds. *)
Lemma main_docs_missing (path : pystr) (pdf : bool) (w : world)
  (data : json) :
  docs_missing data = Ret true ->
  main stdout_encodes str_other markup_ok str_encode_error build_error path pdf (Ret data) w
  = no_annotations_exit w
      (lit "Error: JSON structure is not as expected. Missing 'docs' array.").
Proof.
  intro Hm.
  unfold main, mbind, no_annotations_exit, extract_annotations_from_json.
  unfold mbind, lift. rewrite Hm.
  rewrite print_encodable by (apply encodable_ascii; reflexivity).
  cbn [mret].
  rewrite print_encodable by (apply encodable_ascii; reflexivity).
  cbn [stdout files]. rewrite <- app_assoc. reflexivity.
Qed.

(** An object without a [docs] list. *)
Lemma main_object_without_docs (path : pystr) (pdf : bool) (w : world)
  (d : pydict) :
  (forall l, dict_get d (lit "docs") <> Some (JArr l)) ->
  main stdout_encodes str_other markup_ok str_encode_error build_error path pdf (Ret (JObj d)) w
  = no_annotations_exit w
      (lit "Error: JSON structure is not as expected. Missing 'docs' array.").
Proof.
  intro H. apply main_docs_missing.
  unfold docs_missing, py_in, py_getitem, obind.
  destruct (dict_get d (lit "docs")) as [v|]; simpl; [|reflexivity].
  destruct v; try reflexivity. exfalso. apply (H l). reflexivity.
Qed.

(** The empty list and the empty string hold no [docs] either. *)
Lemma main_empty_list (path : pystr) (pdf : bool) (w : world) :
  main stdout_encodes str_other markup_ok str_encode_error build_error path pdf (Ret (JArr [])) w
  = no_annotations_exit w
      (lit "Error: JSON structure is not as expected. Missing 'docs' array.").
Proof. apply main_docs_missing. reflexivity. Qed.

(** C3 fails on the code: a file whose JSON text is the number [5] makes
    the membership test of line 36 raise [TypeError]; nothing is printed
    and the interpreter leaves with status 1. *)
Theorem main_number_top_level (path : pystr) (pdf : bool) (w : world) :
  extract_annotations_from_json stdout_encodes path (Ret (JInt 5)) w = (Raise TypeError, w) /\
  main stdout_encodes str_other markup_ok str_encode_error build_error path pdf (Ret (JInt 5)) w = (Raise TypeError, w) /\
  exit_status (fst (main stdout_encodes str_other markup_ok str_encode_error build_error path pdf (Ret (JInt 5)) w)) = 1%Z.
Proof. repeat split. Qed.

(** The same happens for a list or a string that holds [docs]: the test
    passes and the subscript of line 36 raises. *)
Lemma main_list_top_level (path : pystr) (pdf : bool) (w : world) :
  main stdout_encodes str_other markup_ok str_encode_error build_error path pdf (Ret (JArr [JStr (lit "docs")])) w
  = (Raise TypeError, w).
Proof. reflexivity. Qed.

(** *** An empty group *)

(** C2, as the claim states it, fails: for the title [T] and no
    annotation, with a build that never fails, no document is written. *)
Lemma save_book_to_pdf_empty_writes_nothing :
  ~ (exists file story,
       In (file, story)
          (files (snd (save_book_to_pdf sample_encodes sample_str_other sample_markup_ok sample_str_encode_error build_always
                         (JStr (lit "T")) [] (lit ".") world0))) /\
       In (Paragraph (lit "T") StyleH1Centered) story /\
       In (Paragraph (lit "No annotations found for this book.") StyleNormal)
          story).
Proof. intros [file [story [H _]]]. exact H. Qed.

(** C2, amended: with an empty annotation list [save_book_to_pdf] builds
    and writes no document. It prints that there is nothing to save for
    the title and returns normally when the standard output can encode
    that line; when it cannot, the print raises [UnicodeEncodeError]. *)
Theorem save_book_to_pdf_empty (book_title : json) (base_path : pystr)
  (w : world) :
  let line := lit "No annotations to save for "
              ++ py_str str_other book_title ++ lit "." in
  save_book_to_pdf stdout_encodes str_other markup_ok str_encode_error build_error book_title [] base_path w
  = if encodable stdout_encodes line
    then (Ret tt, mkWorld (stdout w ++ [line]) (files w))
    else (Raise UnicodeEncodeError, w).
Proof. reflexivity. Qed.

(** *** The story of a book *)

Lemma annotation_row_ok (data : list (list cell)) (ann : pydict) :
  Forall (fun text => markup_ok text = true)
         [page_str str_other ann; quote_str str_other ann;
          annotation_str str_other ann] ->
  annotation_row str_other markup_ok data ann = Ret (data ++ [Reading.row_cells str_other ann]).
Proof.
  intro H. inversion H as [|? ? Hp H1]; subst.
  inversion H1 as [|? ? Hq H2]; subst. inversion H2 as [|? ? Ha _]; subst.
  unfold annotation_row, paragraph_cell, obind. rewrite Hp, Hq, Ha.
  reflexivity.
Qed.

Lemma annotation_row_bad (data : list (list cell)) (ann : pydict) :
  Exists (fun text => markup_ok text = false)
         [page_str str_other ann; quote_str str_other ann;
          annotation_str str_other ann] ->
  annotation_row str_other markup_ok data ann = Raise ValueError.
Proof.
  intro H. unfold annotation_row, paragraph_cell, obind.
  destruct (markup_ok (page_str str_other ann)) eqn:Hp; [|reflexivity].
  destruct (markup_ok (quote_str str_other ann)) eqn:Hq; [|reflexivity].
  destruct (markup_ok (annotation_str str_other ann)) eqn:Ha; [|reflexivity].
  exfalso.
  repeat (inversion H as [? ? Hx | ? ? Hx]; subst; [congruence|]; clear H;
          rename Hx into H).
  inversion H.
Qed.

Lemma annotation_rows_ok (anns : list pydict) :
  forall data,
    Forall (fun text => markup_ok text = true)
           (flat_map (fun ann => [page_str str_other ann;
                                  quote_str str_other ann;
                                  annotation_str str_other ann]) anns) ->
    for_each anns (annotation_row str_other markup_ok) data
    = Ret (data ++ map (Reading.row_cells str_other) anns).
Proof.
  induction anns as [|ann anns IH]; intros data H.
  - simpl. rewrite app_nil_r. reflexivity.
  - cbn [flat_map] in H. apply Forall_app in H. destruct H as [Hann Hrest].
    cbn [for_each]. rewrite (annotation_row_ok data ann Hann). cbn [obind].
    rewrite (IH _ Hrest). cbn [map]. rewrite <- app_assoc. reflexivity.
Qed.

Lemma annotation_rows_bad (anns : list pydict) :
  forall data,
    Exists (fun text => markup_ok text = false)
           (flat_map (fun ann => [page_str str_other ann;
                                  quote_str str_other ann;
                                  annotation_str str_other ann]) anns) ->
    for_each anns (annotation_row str_other markup_ok) data = Raise ValueError.
Proof.
  induction anns as [|ann anns IH]; intros data H.
  - inversion H.
  - cbn [flat_map] in H. apply Exists_app in H. cbn [for_each].
    destruct (annotation_row str_other markup_ok data ann) as [data'|e] eqn:E.
    + cbn [obind]. apply IH. destruct H as [H|H]; [|exact H].
      rewrite (annotation_row_bad data ann H) in E. discriminate.
    + unfold annotation_row, paragraph_cell, obind in E.
      destruct (markup_ok (page_str str_other ann));
        destruct (markup_ok (quote_str str_other ann));
        destruct (markup_ok (annotation_str str_other ann));
        try discriminate; injection E as <-; reflexivity.
Qed.

(** The story of a group that is not empty, when the library accepts
    every text: the title, a spacer and the table. The notice of line
    124 is not part of it. *)
Lemma build_story_ok (title : pystr) (ann : pydict) (anns : list pydict) :
  Forall (fun text => markup_ok text = true)
         (Reading.story_texts str_other title (ann :: anns)) ->
  build_story str_other markup_ok title (ann :: anns)
  = Ret [Paragraph title StyleH1Centered; Spacer 1 18;
         Table (table_header
                :: map (Reading.row_cells str_other) (ann :: anns))
               [54; 216; 216]%Z].
Proof.
  unfold Reading.story_texts. intro H.
  inversion H as [|? ? Ht Hrows]; subst.
  unfold build_story, paragraph. rewrite Ht. cbn [obind].
  rewrite (annotation_rows_ok (ann :: anns) [table_header] Hrows).
  cbn [obind]. rewrite length_app, length_map. reflexivity.
Qed.

(** One text that the library rejects is enough to lose the story. *)
Lemma build_story_bad (title : pystr) (anns : list pydict) :
  Exists (fun text => markup_ok text = false)
         (Reading.story_texts str_other title anns) ->
  build_story str_other markup_ok title anns = Raise ValueError.
Proof.
  unfold Reading.story_texts. intro H.
  unfold build_story, paragraph.
  destruct (markup_ok title) eqn:Ht; [|reflexivity]. cbn [obind].
  inversion H as [? ? Hx | ? ? Hx]; subst; [congruence|].
  rewrite (annotation_rows_bad anns [table_header] Hx). reflexivity.
Qed.

Lemma story_texts_cases (title : pystr) (anns : list pydict) :
  Forall (fun text => markup_ok text = true)
         (Reading.story_texts str_other title anns) \/
  Exists (fun text => markup_ok text = false)
         (Reading.story_texts str_other title anns).
Proof.
  induction (Reading.story_texts str_other title anns) as [|t l IH].
  - left. constructor.
  - destruct (markup_ok t) eqn:E.
    + destruct IH as [IH|IH]; [left; constructor; assumption | right].
      apply Exists_cons_tl. exact IH.
    + right. apply Exists_cons_hd. exact E.
Qed.

(** *** Page numbers *)

(** The rows of the grouped map always carry the page key, so the
    default of line 113 shows only for a row dict built without it. *)
Lemma row_of_page_number (r : AnnotationRecord) :
  dict_get (row_of r) (lit "page_number") = Some (page_number r).
Proof. reflexivity. Qed.

Lemma page_str_without_key (q a : json) :
  page_str str_other [(lit "quote", q); (lit "annotation", a)] = lit "N/A".
Proof. reflexivity. Qed.

(** C7 fails on the code: a complete citation without [note_page] gives
    a record whose page is [None]; the row dict of the PDF carries the
    key with that value, so the page text of line 113 is [None] and not
    the default [N/A] that the line declares, and the console line is
    [Page: None]. *)
Theorem absent_page_shows_none (book : json) (c : pydict)
  (acc : list AnnotationRecord)
  (Hc : complete c = true)
  (Hpage : dict_get c (lit "note_page") = None) :
  exists r : AnnotationRecord,
    extract_citation book acc (JObj c) = Ret (acc ++ [r]) /\
    page_number r = JNull /\
    page_str str_other (row_of r) = lit "None" /\
    page_str str_other (row_of r) <> lit "N/A" /\
    nth 1 (Reading.record_lines str_other r) [] = lit "  Page: None".
Proof.
  exists (record_of book c).
  split; [rewrite extract_citation_dict, Hc; reflexivity|].
  unfold record_of, field, page_str, row_of, Reading.record_lines.
  cbn [page_number nth dict_get_default dict_get].
  rewrite Hpage.
  repeat split; try reflexivity. discriminate.
Qed.

(** *** Rendering every book *)

(** C9 fails on the code: the paragraphs of a book are made before the
    [try] of line 144, so a title, page, quote or annotation that the
    library rejects raises [ValueError] out of [save_book_to_pdf] and out
    of the loop of lines 181-182: nothing is printed, no file is written
    and no later book is rendered. *)
Theorem render_books_aborts_on_markup (title : pystr) (ann : pydict)
  (anns : list pydict) (later : books) (w : world)
  (Hbad : Exists (fun text => markup_ok text = false)
                 (Reading.story_texts str_other title (ann :: anns))) :
  save_book_to_pdf stdout_encodes str_other markup_ok str_encode_error build_error (JStr title) (ann :: anns) (lit ".") w = (Raise ValueError, w) /\
  render_books stdout_encodes str_other markup_ok str_encode_error build_error ((JStr title, ann :: anns) :: later) w = (Raise ValueError, w).
Proof.
  assert (Hsave : save_book_to_pdf stdout_encodes str_other markup_ok str_encode_error build_error (JStr title) (ann :: anns) (lit ".") w
                  = (Raise ValueError, w)).
  { unfold save_book_to_pdf, mbind, lift.
    rewrite (@build_story_bad title (ann :: anns) Hbad). reflexivity. }
  split; [exact Hsave|].
  unfold render_books. cbn [mfor fst snd]. unfold mbind at 1.
  rewrite Hsave. reflexivity.
Qed.

End ReporterProperties.

Lemma absent_page_shows_none_witness :
  exists r : AnnotationRecord,
    extract_citation (JStr (lit "T")) [] (JObj sample_citation_no_page)
    = Ret ([] ++ [r]) /\
    page_number r = JNull /\
    page_str sample_str_other (row_of r) = lit "None" /\
    page_str sample_str_other (row_of r) <> lit "N/A" /\
    nth 1 (Reading.record_lines sample_str_other r) [] = lit "  Page: None".
Proof.
  apply (@absent_page_shows_none sample_str_other (JStr (lit "T"))
           sample_citation_no_page []).
  - reflexivity.
  - reflexivity.
Defined.

Lemma render_books_aborts_on_markup_witness :
  save_book_to_pdf sample_encodes sample_str_other sample_markup_ok sample_str_encode_error build_always (JStr (lit "A")) (sample_row_markup :: []) (lit ".") world0
  = (Raise ValueError, world0) /\
  render_books sample_encodes sample_str_other sample_markup_ok sample_str_encode_error build_always
    ((JStr (lit "A"), sample_row_markup :: [])
     :: [(JStr (lit "B"), [sample_row])]) world0
  = (Raise ValueError, world0).
Proof.
  apply (@render_books_aborts_on_markup sample_encodes sample_str_other sample_markup_ok sample_str_encode_error build_always (lit "A")
           sample_row_markup [] [(JStr (lit "B"), [sample_row])] world0).
  apply Exists_cons_tl. apply Exists_cons_tl. apply Exists_cons_hd.
  reflexivity.
Defined.

(** A failing build is reported and the next book is rendered. *)
Lemma render_books_sample :
  render_books sample_encodes sample_str_other sample_markup_ok sample_str_encode_error sample_build_error sample_books world0
  = (Ret tt,
     mkWorld [lit "Error generating PDF for A: disk full";
              lit "Successfully generated PDF: ./B_Annotations.pdf"]
             [(lit "./B_Annotations.pdf",
               [Paragraph (lit "B") StyleH1Centered; Spacer 1 18;
                Table [table_header;
                       [CellPara (lit "5") StyleNormal;
                        CellPara (lit "Q") StyleNormal;
                        CellPara (lit "A") StyleNormal]]
                      [54; 216; 216]%Z])]).
Proof. vm_compute. reflexivity. Qed.

(** The example of the specification: one document titled [T] with one
    citation, printed to the console. *)
Lemma main_console_sample :
  main sample_encodes sample_str_other sample_markup_ok sample_str_encode_error build_always (lit "export.json") false (Ret sample_export) world0
  = (Ret tt,
     mkWorld [ [newline] ++ lit "Extracted Annotations (Console Output):";
               lit "  Book: T";
               lit "  Page: 5";
               lit "  Quote: " ++ [dquote] ++ lit "Q" ++ [dquote];
               lit "  Annotation: " ++ [dquote] ++ lit "A" ++ [dquote];
               lit "--------------------" ]
             []).
Proof. vm_compute. reflexivity. Qed.
(** ** Grouping *)

Section Grouping.

Import Spec.

Lemma dict_key_eqb_eq (a b : dict_key) : dict_key_eqb a b = true <-> a = b.
Proof.
  destruct a, b; simpl; try (split; [discriminate | discriminate]);
    try tauto.
  - rewrite str_eqb_eq. split; [intros -> | intros [= ->]]; reflexivity.
  - rewrite Bool.eqb_true_iff. split; [intros -> | intros [= ->]]; reflexivity.
  - rewrite !andb_true_iff, Bool.eqb_true_iff, Pos.eqb_eq, Z.eqb_eq.
    split; [intros [[-> ->] ->] | intros [= -> -> ->]]; auto.
Qed.

Lemma dict_key_eqb_refl (k : dict_key) : dict_key_eqb k k = true.
Proof. apply dict_key_eqb_eq. reflexivity. Qed.

Lemma dict_key_eqb_sym (a b : dict_key) : dict_key_eqb a b = dict_key_eqb b a.
Proof.
  destruct (dict_key_eqb a b) eqn:E1, (dict_key_eqb b a) eqn:E2; try reflexivity.
  - apply dict_key_eqb_eq in E1. subst. rewrite dict_key_eqb_refl in E2.
    discriminate.
  - apply dict_key_eqb_eq in E2. subst. rewrite dict_key_eqb_refl in E1.
    discriminate.
Qed.

Lemma hashable_key_of (v : json) :
  hashable v = true -> exists k, key_of v = Ret k.
Proof. destruct v; simpl; try discriminate; eexists; reflexivity. Qed.

Lemma is_key_iff (k : dict_key) (v : json) :
  is_key k v = true <-> key_of v = Ret k.
Proof.
  unfold is_key. destruct (key_of v) as [k'|e].
  - rewrite dict_key_eqb_eq. split; [intros -> | intros [= ->]]; reflexivity.
  - split; discriminate.
Qed.

Lemma same_book_is_key (a b : json) (k : dict_key) :
  key_of a = Ret k -> same_book a b = is_key k b.
Proof. intro H. unfold same_book, is_key. rewrite H. reflexivity. Qed.

Lemma same_book_is_key_r (a b : json) (k : dict_key) :
  key_of b = Ret k -> same_book a b = is_key k a.
Proof.
  intro H. unfold same_book, is_key. rewrite H.
  destruct (key_of a); [apply dict_key_eqb_sym | reflexivity].
Qed.

(** On strings, being the same book is being the same string. *)
Lemma same_book_str (a b : pystr) :
  same_book (JStr a) (JStr b) = true <-> a = b.
Proof. unfold same_book; simpl. apply str_eqb_eq. Qed.

Lemma same_book_both_keys (k : dict_key) (a b : json) :
  is_key k a = true -> is_key k b = true -> same_book a b = true.
Proof.
  rewrite !is_key_iff. intros Ha Hb. unfold same_book.
  rewrite Ha, Hb. apply dict_key_eqb_refl.
Qed.

Lemma same_book_key_transfer (k : dict_key) (a b : json) :
  same_book a b = true -> is_key k b = true -> is_key k a = true.
Proof.
  unfold same_book. rewrite !is_key_iff.
  destruct (key_of a) as [ka|]; [|discriminate].
  destruct (key_of b) as [kb|]; [|discriminate].
  rewrite dict_key_eqb_eq. intros -> [= ->]. reflexivity.
Qed.

(** *** The order of first appearance *)

Lemma existsb_filter_keep {A} (p q : A -> bool) (l : list A) :
  (forall x, p x = true -> q x = true) ->
  existsb p (filter q l) = existsb p l.
Proof.
  intro H. induction l as [|x l IH]; simpl; [reflexivity|].
  destruct (q x) eqn:Eq; simpl; rewrite IH; [reflexivity|].
  destruct (p x) eqn:Ep; [|reflexivity].
  rewrite (H x Ep) in Eq. discriminate.
Qed.

Lemma existsb_pointwise {A} (p q : A -> bool) (l : list A) :
  (forall x, p x = q x) -> existsb p l = existsb q l.
Proof.
  intro H. induction l as [|x l IH]; simpl; [reflexivity|].
  rewrite H, IH. reflexivity.
Qed.

Lemma first_seen_covers (k : dict_key) (names : list json) :
  existsb (is_key k) (first_seen names) = existsb (is_key k) names.
Proof.
  induction names as [|n rest IH]; simpl; [reflexivity|].
  destruct (is_key k n) eqn:En; simpl; [reflexivity|].
  rewrite existsb_filter_keep; [exact IH|].
  intros m Hm. apply negb_true_iff.
  destruct (same_book n m) eqn:Es; [|reflexivity].
  rewrite (same_book_key_transfer k n m Es Hm) in En. discriminate.
Qed.

Lemma first_seen_snoc (names : list json) (x : json) :
  first_seen (names ++ [x])
  = first_seen names
    ++ (if existsb (fun n => same_book n x) names then [] else [x]).
Proof.
  induction names as [|n rest IH]; simpl; [reflexivity|].
  rewrite IH, filter_app. f_equal. f_equal.
  destruct (same_book n x) eqn:Es; simpl.
  - destruct (existsb (fun n0 => same_book n0 x) rest); simpl;
      [reflexivity | rewrite Es; reflexivity].
  - destruct (existsb (fun n0 => same_book n0 x) rest); simpl;
      [reflexivity | rewrite Es; reflexivity].
Qed.

Lemma ForallOrdPairs_filter {A} (R : A -> A -> Prop) (p : A -> bool)
  (l : list A) :
  ForallOrdPairs R l -> ForallOrdPairs R (filter p l).
Proof.
  induction 1 as [|a l Ha _ IH]; simpl; [constructor|].
  destruct (p a); [|exact IH].
  constructor; [|exact IH].
  apply Forall_forall. intros x Hx. apply filter_In in Hx.
  rewrite Forall_forall in Ha. apply Ha. tauto.
Qed.

(** No book is listed twice. *)
Lemma first_seen_distinct (names : list json) :
  ForallOrdPairs (fun a b => same_book a b = false) (first_seen names).
Proof.
  induction names as [|n rest IH]; simpl; constructor.
  - apply Forall_forall. intros m Hm. apply filter_In in Hm.
    destruct Hm as [_ Hm]. apply negb_true_iff. exact Hm.
  - apply ForallOrdPairs_filter. exact IH.
Qed.

(** *** Appending to the entry of a key *)

Section Append.

Variable k : dict_key.
Variable row : pydict.
Variable rows_of : json -> list pydict.

Lemma books_append_absent (l : list json) :
  existsb (is_key k) l = false ->
  forall tail,
    books_append (map (fun b => (b, rows_of b)) l ++ tail) k row
    = map (fun b => (b, rows_of b)) l ++ books_append tail k row.
Proof.
  induction l as [|b l IH]; simpl; intros H tail; [reflexivity|].
  apply orb_false_iff in H. destruct H as [Hb Hl].
  rewrite Hb, (IH Hl). reflexivity.
Qed.

Lemma books_append_distinct (l : list json) :
  ForallOrdPairs (fun a b => same_book a b = false) l ->
  books_append (map (fun b => (b, rows_of b)) l) k row
  = map (fun b => (b, rows_of b ++ if is_key k b then [row] else [])) l.
Proof.
  induction 1 as [|b l Hb _ IH]; simpl; [reflexivity|].
  destruct (is_key k b) eqn:Eb.
  - f_equal. apply map_ext_in. intros c Hc.
    rewrite Forall_forall in Hb. specialize (Hb c Hc).
    destruct (is_key k c) eqn:Ec.
    + rewrite (same_book_both_keys k b c Eb Ec) in Hb. discriminate.
    + rewrite app_nil_r. reflexivity.
  - rewrite app_nil_r, IH. reflexivity.
Qed.

End Append.

Lemma books_contains_map (k : dict_key) (rows_of : json -> list pydict)
  (l : list json) :
  books_contains (map (fun b => (b, rows_of b)) l) k = existsb (is_key k) l.
Proof.
  unfold books_contains. induction l as [|b l IH]; simpl; [reflexivity|].
  rewrite IH. reflexivity.
Qed.

Lemma records_of_snoc (book : json) (rs : list AnnotationRecord)
  (r : AnnotationRecord) :
  map row_of (records_of book (rs ++ [r]))
  = map row_of (records_of book rs)
    ++ if same_book book (book_name r) then [row_of r] else [].
Proof.
  unfold records_of. rewrite filter_app, map_app. simpl.
  destruct (same_book book (book_name r)); reflexivity.
Qed.

Lemma records_of_none (k : dict_key) (book : json)
  (rs : list AnnotationRecord) :
  key_of book = Ret k ->
  existsb (is_key k) (map book_name rs) = false ->
  records_of book rs = [].
Proof.
  intros Hk. unfold records_of.
  induction rs as [|r rs IH]; simpl; intro H; [reflexivity|].
  apply orb_false_iff in H. destruct H as [Hr Hrs].
  rewrite (same_book_is_key book (book_name r) Hk), Hr. exact (IH Hrs).
Qed.

(** One more record: what the loop body does to the grouped map. *)
Lemma group_step_grouped (rs : list AnnotationRecord) (r : AnnotationRecord) :
  hashable (book_name r) = true ->
  group_step (grouped rs) r = Ret (grouped (rs ++ [r])).
Proof.
  intro Hh. destruct (hashable_key_of _ Hh) as [k Hk].
  unfold group_step. rewrite Hk. simpl. f_equal.
  unfold grouped. rewrite map_app.
  change (map book_name [r]) with [book_name r].
  rewrite first_seen_snoc.
  rewrite books_contains_map, first_seen_covers.
  assert (Hex : existsb (fun n => same_book n (book_name r)) (map book_name rs)
                = existsb (is_key k) (map book_name rs)).
  { apply existsb_pointwise. intro n. apply same_book_is_key_r. exact Hk. }
  rewrite Hex.
  destruct (existsb (is_key k) (map book_name rs)) eqn:E; simpl.
  - rewrite app_nil_r.
    rewrite (books_append_distinct k (row_of r)
               (fun b => map row_of (records_of b rs))
               (first_seen_distinct (map book_name rs))).
    apply map_ext. intro b. rewrite records_of_snoc.
    rewrite (same_book_is_key_r b (book_name r) Hk). reflexivity.
  - rewrite map_app.
    rewrite (books_append_absent k (row_of r)
               (fun b => map row_of (records_of b rs))).
    2:{ rewrite first_seen_covers. exact E. }
    simpl.
    assert (Hself : is_key k (book_name r) = true) by (apply is_key_iff; exact Hk).
    rewrite Hself. f_equal.
    + apply map_ext_in. intros b Hb. rewrite records_of_snoc.
      rewrite (same_book_is_key_r b (book_name r) Hk).
      assert (Hnb : is_key k b = false).
      { destruct (is_key k b) eqn:Eb; [|reflexivity].
        assert (Hx : existsb (is_key k) (first_seen (map book_name rs)) = true).
        { apply existsb_exists. exists b. split; assumption. }
        rewrite first_seen_covers, E in Hx. discriminate. }
      rewrite Hnb, app_nil_r. reflexivity.
    + rewrite records_of_snoc, (@records_of_none k (book_name r) rs Hk E).
      rewrite (same_book_is_key (book_name r) (book_name r) Hk), Hself.
      reflexivity.
Qed.

Lemma for_each_group_step_grouped (records : list AnnotationRecord) :
  Forall (fun r => hashable (book_name r) = true) records ->
  for_each records group_step [] = Ret (grouped records).
Proof.
  induction records as [|r rs IH] using rev_ind; intro H; [reflexivity|].
  apply Forall_app in H. destruct H as [Hrs Hr].
  inversion Hr as [|? ? Hh _]; subst.
  rewrite for_each_snoc, (IH Hrs). simpl.
  apply group_step_grouped. exact Hh.
Qed.

Lemma first_seen_In (names : list json) (b : json) :
  In b (first_seen names) -> In b names.
Proof.
  revert b. induction names as [|n rest IH]; simpl; intros b H; [exact H|].
  destruct H as [H|H]; [left; exact H|].
  right. apply IH. apply filter_In in H. tauto.
Qed.

End Grouping.

(** ** Dict keys and equality of names *)

Section Keys.

Import Spec.

Lemma odd_part_spec (p : positive) :
  Z.odd (Zpos (fst (odd_part p))) = true /\
  (0 <= snd (odd_part p))%Z /\
  Zpos p = (Zpos (fst (odd_part p)) * 2 ^ snd (odd_part p))%Z.
Proof.
  induction p as [q _ | q IH | ].
  - simpl. repeat split; [lia | lia].
  - cbn [odd_part]. destruct (odd_part q) as [o k]. cbn [fst snd] in *.
    destruct IH as [Ho [Hk Hq]]. repeat split; [exact Ho | lia |].
    rewrite Pos2Z.inj_xO, Hq.
    replace (k + 1)%Z with (Z.succ k) by lia.
    rewrite Z.pow_succ_r by exact Hk. ring.
  - simpl. repeat split; lia.
Qed.

Lemma odd_not_even_multiple (x y d : Z) :
  Z.odd x = true -> (0 < d)%Z -> x <> (y * 2 ^ d)%Z.
Proof.
  intros Hx Hd E. subst x.
  rewrite Z.odd_mul, Z.odd_pow in Hx by exact Hd.
  rewrite andb_false_r in Hx. discriminate.
Qed.

Lemma dyadic_unique (o o' : positive) (a b : Z) :
  Z.odd (Zpos o) = true -> Z.odd (Zpos o') = true ->
  (0 <= a)%Z -> (0 <= b)%Z ->
  (Zpos o * 2 ^ a = Zpos o' * 2 ^ b)%Z ->
  o = o' /\ a = b.
Proof.
  intros Ho Ho' Ha Hb E.
  assert (Hpa : (0 < 2 ^ a)%Z) by (apply Z.pow_pos_nonneg; lia).
  assert (Hpb : (0 < 2 ^ b)%Z) by (apply Z.pow_pos_nonneg; lia).
  destruct (Z.lt_trichotomy a b) as [Hlt | [Heq | Hgt]].
  - exfalso. apply (@odd_not_even_multiple (Zpos o) (Zpos o') (b - a) Ho);
      [lia|].
    replace b with ((b - a) + a)%Z in E by lia.
    rewrite Z.pow_add_r in E by lia.
    rewrite Z.mul_assoc in E. apply Z.mul_reg_r in E; [exact E | lia].
  - subst b. apply Z.mul_reg_r in E; [|lia].
    injection E as ->. split; reflexivity.
  - exfalso. apply (@odd_not_even_multiple (Zpos o') (Zpos o) (a - b) Ho');
      [lia|].
    replace a with ((a - b) + b)%Z in E by lia.
    rewrite Z.pow_add_r in E by lia.
    rewrite Z.mul_assoc in E. apply Z.mul_reg_r in E; [symmetry; exact E | lia].
Qed.

(** Two finite floats have the same key exactly when they have the same
    sign and the same exact magnitude. *)
Lemma finite_key_eq (s s' : bool) (m m' : positive) (e e' : Z) :
  key_of_float (FFinite s m e) = key_of_float (FFinite s' m' e')
  <-> s = s' /\
      (if Z.leb e e' then Zpos m = (Zpos m' * 2 ^ (e' - e))%Z
       else (Zpos m * 2 ^ (e - e'))%Z = Zpos m').
Proof.
  cbn [key_of_float].
  pose proof (odd_part_spec m) as [Ho [Hk Hm]].
  pose proof (odd_part_spec m') as [Ho' [Hk' Hm']].
  destruct (odd_part m) as [o k], (odd_part m') as [o' k'].
  cbn [fst snd] in *.
  destruct (Z.leb_spec e e') as [Hle | Hgt].
  - split.
    + intros [= -> -> Hexp]. split; [reflexivity|].
      rewrite Hm, Hm', <- Z.mul_assoc, <- Z.pow_add_r by lia.
      f_equal. f_equal. lia.
    + intros [-> E]. rewrite Hm, Hm', <- Z.mul_assoc, <- Z.pow_add_r in E by lia.
      apply dyadic_unique in E; try assumption; try lia.
      destruct E as [-> Hexp]. f_equal. lia.
  - split.
    + intros [= -> -> Hexp]. split; [reflexivity|].
      rewrite Hm, Hm', <- Z.mul_assoc, <- Z.pow_add_r by lia.
      f_equal. f_equal. lia.
    + intros [-> E]. rewrite Hm, Hm', <- Z.mul_assoc, <- Z.pow_add_r in E by lia.
      apply dyadic_unique in E; try assumption; try lia.
      destruct E as [-> Hexp]. f_equal. lia.
Qed.

Lemma key_of_int_pos (p : positive) :
  key_of_int (Zpos p) = key_of_float (FFinite false p 0).
Proof.
  cbn [key_of_int key_of_float]. destruct (odd_part p) as [o k].
  rewrite Z.add_0_r. reflexivity.
Qed.

Lemma key_of_int_neg (p : positive) :
  key_of_int (Zneg p) = key_of_float (FFinite true p 0).
Proof.
  cbn [key_of_int key_of_float]. destruct (odd_part p) as [o k].
  rewrite Z.add_0_r. reflexivity.
Qed.

Lemma finite_key_not_zero (s : bool) (m : positive) (e : Z) :
  key_of_float (FFinite s m e) <> KZero /\
  (forall a, key_of_float (FFinite s m e) <> KInf a) /\
  key_of_float (FFinite s m e) <> KNone /\
  (forall t, key_of_float (FFinite s m e) <> KStr t).
Proof.
  cbn [key_of_float]. destruct (odd_part m) as [o k].
  repeat split; try intro; discriminate.
Qed.

Lemma float_key_eq (f g : pyfloat) :
  key_of_float f = key_of_float g <-> float_equals f g = true.
Proof.
  destruct f as [a | a | s m e], g as [b | b | s' m' e'];
    cbn [float_equals];
    try (split; [reflexivity | reflexivity]);
    try (cbn [key_of_float]; split; discriminate).
  - pose proof (finite_key_not_zero s' m' e') as [H _].
    split; [intro E; symmetry in E; contradiction | discriminate].
  - cbn [key_of_float]. rewrite Bool.eqb_true_iff.
    split; [intros [= ->] | intros ->]; reflexivity.
  - pose proof (finite_key_not_zero s' m' e') as [_ [H _]].
    split; [intro E; symmetry in E; exfalso; exact (H a E) | discriminate].
  - pose proof (finite_key_not_zero s m e) as [H _].
    split; [intro E; contradiction | discriminate].
  - pose proof (finite_key_not_zero s m e) as [_ [H _]].
    split; [intro E; exfalso; exact (H b E) | discriminate].
  - rewrite finite_key_eq, andb_true_iff, Bool.eqb_true_iff.
    destruct (Z.leb e e'); rewrite Z.eqb_eq; reflexivity.
Qed.

Lemma int_key_eq (n m : Z) :
  key_of_int n = key_of_int m <-> Z.eqb n m = true.
Proof.
  rewrite Z.eqb_eq.
  destruct n as [|p|p], m as [|q|q];
    rewrite ?key_of_int_pos, ?key_of_int_neg;
    try (split; reflexivity);
    try (pose proof (finite_key_not_zero false q 0) as [H _]);
    try (pose proof (finite_key_not_zero true q 0) as [H' _]);
    try (pose proof (finite_key_not_zero false p 0) as [G _]);
    try (pose proof (finite_key_not_zero true p 0) as [G' _]);
    try (cbn [key_of_int] in *; split;
         [intro E; first [contradiction | symmetry in E; contradiction]
         | discriminate]).
  - rewrite finite_key_eq. cbn [Z.leb Z.compare Z.sub Z.opp Z.add Z.pow].
    change (2 ^ 0)%Z with 1%Z. rewrite Z.mul_1_r.
    split; [intros [_ E]; exact E | intro E; split; [reflexivity | exact E]].
  - rewrite finite_key_eq. split; [intros [E _]; discriminate | discriminate].
  - rewrite finite_key_eq. split; [intros [E _]; discriminate | discriminate].
  - rewrite finite_key_eq. cbn [Z.leb Z.compare Z.sub Z.opp Z.add Z.pow].
    change (2 ^ 0)%Z with 1%Z. rewrite Z.mul_1_r.
    split; [intros [_ E]; injection E as ->; reflexivity
           | intros [= ->]; split; reflexivity].
Qed.

Lemma pow2_pos (e : Z) : (0 <= e)%Z -> (0 < 2 ^ e)%Z.
Proof. intro H. apply Z.pow_pos_nonneg; lia. Qed.

Lemma int_float_key_eq (n : Z) (f : pyfloat) :
  key_of_int n = key_of_float f <-> int_equals_float n f = true.
Proof.
  destruct f as [a | a | s m e]; cbn [int_equals_float].
  - change (key_of_float (FZero a)) with (key_of_int 0). apply int_key_eq.
  - split; [|discriminate]. intro E. exfalso.
    destruct n as [|p|p]; rewrite ?key_of_int_pos, ?key_of_int_neg in E.
    + discriminate E.
    + pose proof (finite_key_not_zero false p 0) as [_ [H _]]. exact (H a E).
    + pose proof (finite_key_not_zero true p 0) as [_ [H _]]. exact (H a E).
  - destruct n as [|p|p]; rewrite ?key_of_int_pos, ?key_of_int_neg.
    + pose proof (finite_key_not_zero s m e) as [H _].
      split; [intro E; symmetry in E; contradiction|].
      destruct (Z.leb_spec 0 e) as [He|He]; rewrite Z.eqb_eq; intro E; exfalso.
      * pose proof (pow2_pos He). destruct s; cbn [signed] in E; nia.
      * destruct s; cbn [signed] in E; lia.
    + rewrite finite_key_eq. rewrite Z.sub_0_r, Z.sub_0_l.
      destruct (Z.leb_spec 0 e) as [He|He]; rewrite Z.eqb_eq.
      * pose proof (pow2_pos He).
        destruct s; cbn [signed];
          (split; [intros [Hs E]; first [discriminate Hs | exact E]
                  | intro E; first [split; [reflexivity | exact E] | exfalso; nia]]).
      * assert (0 < 2 ^ (- e))%Z by (apply pow2_pos; lia).
        destruct s; cbn [signed];
          (split; [intros [Hs E]; first [discriminate Hs | exact E]
                  | intro E; first [split; [reflexivity | exact E] | exfalso; nia]]).
    + rewrite finite_key_eq. rewrite Z.sub_0_r, Z.sub_0_l.
      destruct (Z.leb_spec 0 e) as [He|He]; rewrite Z.eqb_eq.
      * pose proof (pow2_pos He).
        destruct s; cbn [signed];
          (split; [intros [Hs E]; first [discriminate Hs | nia]
                  | intro E; first [split; [reflexivity | nia] | exfalso; nia]]).
      * assert (0 < 2 ^ (- e))%Z by (apply pow2_pos; lia).
        destruct s; cbn [signed];
          (split; [intros [Hs E]; first [discriminate Hs | nia]
                  | intro E; first [split; [reflexivity | nia] | exfalso; nia]]).
Qed.

Lemma key_of_int_scalar (n : Z) (k : dict_key) :
  key_of_int n = k ->
  match k with KNone | KStr _ | KInf _ => False | _ => True end.
Proof.
  intros <-. destruct n as [|p|p]; cbn [key_of_int];
    try destruct (odd_part p); exact I.
Qed.

Lemma key_of_float_scalar (f : pyfloat) (k : dict_key) :
  key_of_float f = k ->
  match k with KNone | KStr _ => False | _ => True end.
Proof.
  intros <-. destruct f as [a | a | s m e]; cbn [key_of_float];
    try destruct (odd_part m); exact I.
Qed.

Ltac key_clash E :=
  exfalso;
  first [ discriminate E
        | exact (@key_of_int_scalar _ _ E)
        | exact (@key_of_int_scalar _ _ (eq_sym E))
        | exact (@key_of_float_scalar _ _ E)
        | exact (@key_of_float_scalar _ _ (eq_sym E)) ].

(** The keys of two names are equal exactly when the names are equal as
    Python compares them. *)
Lemma key_eq_same_name (a b : json) (ka kb : dict_key) :
  key_of a = Ret ka -> key_of b = Ret kb ->
  (ka = kb <-> same_name a b = true).
Proof.
  destruct a as [| ba | na | fa | sa | la | da];
    destruct b as [| bb | nb | fb | sb | lb | db];
    cbn [key_of]; intros Ha Hb; try discriminate Ha; try discriminate Hb;
    injection Ha as <-; injection Hb as <-;
    cbn [same_name int_value];
    try (split; [intro E; key_clash E | discriminate]).
  - split; reflexivity.
  - apply int_key_eq.
  - apply int_key_eq.
  - apply int_float_key_eq.
  - apply int_key_eq.
  - apply int_key_eq.
  - apply int_float_key_eq.
  - rewrite <- int_float_key_eq. split; intro E; symmetry; exact E.
  - rewrite <- int_float_key_eq. split; intro E; symmetry; exact E.
  - apply float_key_eq.
  - rewrite str_eqb_eq. split; [intros [= ->] | intros ->]; reflexivity.
Qed.

Lemma same_book_same_name (a b : json) :
  hashable a = true -> hashable b = true -> same_book a b = same_name a b.
Proof.
  intros Ha Hb.
  destruct (hashable_key_of _ Ha) as [ka Hka].
  destruct (hashable_key_of _ Hb) as [kb Hkb].
  unfold same_book. rewrite Hka, Hkb.
  pose proof (key_eq_same_name a b Hka Hkb) as H.
  rewrite <- dict_key_eqb_eq in H.
  destruct (dict_key_eqb ka kb), (same_name a b); try reflexivity.
  - symmetry. apply H. reflexivity.
  - apply H. reflexivity.
Qed.

Lemma first_seen_names_in_order (names : list json) :
  Forall (fun n => hashable n = true) names ->
  first_seen names = names_in_order names.
Proof.
  induction 1 as [|n rest Hn Hrest IH]; [reflexivity|].
  cbn [first_seen names_in_order]. f_equal. rewrite <- IH.
  apply filter_ext_in. intros m Hm. f_equal.
  apply same_book_same_name; [exact Hn|].
  apply first_seen_In in Hm. rewrite Forall_forall in Hrest.
  exact (Hrest m Hm).
Qed.

(** On names that can be keys, the grouped map of the dict is the
    grouping of the specification. *)
Lemma grouped_grouping (records : list AnnotationRecord) :
  Forall (fun r => hashable (book_name r) = true) records ->
  grouped records = grouping records.
Proof.
  intro H. unfold grouped, grouping.
  assert (Hnames : Forall (fun n => hashable n = true) (map book_name records)).
  { apply Forall_forall. intros n Hn. apply in_map_iff in Hn.
    destruct Hn as [r [<- Hr]]. rewrite Forall_forall in H. exact (H r Hr). }
  rewrite <- (first_seen_names_in_order Hnames).
  apply map_ext_in. intros book Hbook. f_equal.
  unfold records_of, rows_of_book.
  apply first_seen_In in Hbook. rewrite Forall_forall in Hnames.
  pose proof (Hnames book Hbook) as Hb.
  assert (Hf : filter (fun r => same_book book (book_name r)) records
               = filter (fun r => same_name book (book_name r)) records).
  { apply filter_ext_in. intros r Hr. apply same_book_same_name; [exact Hb|].
    rewrite Forall_forall in H. exact (H r Hr). }
  rewrite Hf. apply map_ext. intro r. reflexivity.
Qed.

(** C5: for records whose book names can be dict keys (every string
    can), grouping returns the books in the order in which their names
    are first seen, each with the rows of exactly the records of that
    name, in their original order. Names are compared as Python compares
    them: strings as strings, numbers by value. *)
Theorem group_by_book_grouped (records : list AnnotationRecord)
  (Hnames : Forall (fun r => hashable (book_name r) = true) records) :
  group_by_book records = Ret (grouping records).
Proof.
  unfold group_by_book.
  rewrite (for_each_group_step_grouped Hnames), (grouped_grouping Hnames).
  reflexivity.
Qed.

End Keys.

Lemma group_by_book_grouped_witness :
  group_by_book sample_records = Ret (Spec.grouping sample_records).
Proof.
  apply (@group_by_book_grouped sample_records).
  repeat constructor.
Defined.

(** The sample: [B] is seen first and keeps both of its records. *)
Lemma group_by_book_sample :
  group_by_book sample_records
  = Ret [ (JStr (lit "B"),
           [ [(lit "page_number", JInt 1); (lit "quote", JStr (lit "q1"));
              (lit "annotation", JStr (lit "a1"))];
             [(lit "page_number", JInt 3); (lit "quote", JStr (lit "q3"));
              (lit "annotation", JStr (lit "a3"))] ]);
          (JStr (lit "A"),
           [ [(lit "page_number", JNull); (lit "quote", JStr (lit "q2"));
              (lit "annotation", JStr (lit "a2"))] ]) ].
Proof. vm_compute. reflexivity. Qed.

(** The boolean [True], the integer 1 and the float 1.0 are one name. *)
Lemma same_name_one :
  Spec.same_name (JBool true) (JInt 1) = true /\
  Spec.same_name (JInt 1) (JFloat (FFinite false 1 0)) = true /\
  Spec.same_name (JFloat (FFinite false 2 (-1))) (JBool true) = true /\
  Spec.same_name (JInt 1) (JStr (lit "1")) = false.
Proof. repeat split. Qed.

(** ** More on the extractor *)

Section ExtractorMore.

Import Spec Reading.

Lemma for_each_app {A S} (body : S -> A -> outcome S) (l1 l2 : list A)
  (acc : S) :
  for_each (l1 ++ l2) body acc
  = let? acc' := for_each l1 body acc in for_each l2 body acc'.
Proof.
  revert acc. induction l1 as [|x l1 IH]; intro acc; simpl.
  - reflexivity.
  - destruct (body acc x) as [acc'|e]; simpl; [apply IH | reflexivity].
Qed.

Lemma for_each_appends {A R} (body : list R -> A -> outcome (list R)) :
  appends body -> appends (fun acc l => for_each l body acc).
Proof.
  intros Hb acc l. revert acc.
  induction l as [|x l IH]; intro acc; simpl.
  - exists []. split; [rewrite app_nil_r; reflexivity|].
    intro acc'. rewrite app_nil_r. reflexivity.
  - pose proof (Hb acc x) as Hx.
    destruct (body acc x) as [res|e]; simpl.
    + destruct Hx as [p [-> Hp]].
      pose proof (IH (acc ++ p)) as Hl.
      destruct (for_each l body (acc ++ p)) as [res'|e'].
      * destruct Hl as [q [-> Hq]]. exists (p ++ q).
        split; [rewrite app_assoc; reflexivity|].
        intro acc'. rewrite Hp. simpl. rewrite Hq, app_assoc. reflexivity.
      * intro acc'. rewrite Hp. simpl. apply Hl.
    + intro acc'. rewrite Hx. reflexivity.
Qed.

Lemma extract_citation_appends (book : json) :
  appends (extract_citation book).
Proof.
  intros acc c. destruct c; try (intro; reflexivity).
  rewrite extract_citation_dict.
  destruct (complete items) eqn:E.
  - eexists. split; [reflexivity|].
    intro acc'. rewrite extract_citation_dict, E. reflexivity.
  - exists []. split; [rewrite app_nil_r; reflexivity|].
    intro acc'. rewrite extract_citation_dict, E, app_nil_r. reflexivity.
Qed.

Lemma extract_doc_appends : appends extract_doc.
Proof.
  intros acc doc. unfold extract_doc.
  destruct (resolve_book_name doc) as [book|e]; simpl; [|intro; reflexivity].
  destruct (py_get doc (lit "citations") JNull) as [citations|e]; simpl;
    [|intro; reflexivity].
  assert (Hskip : exists p : list AnnotationRecord,
             acc = acc ++ p /\ forall acc', Ret acc' = Ret (acc' ++ p)).
  { exists []. split; [rewrite app_nil_r; reflexivity|].
    intro acc'. rewrite app_nil_r. reflexivity. }
  destruct citations as [| | | | |cits|];
    cbn [isinstance_list negb]; rewrite ?orb_true_r, ?orb_false_r;
    try exact Hskip.
  destruct cits as [|c cs]; [exact Hskip|].
  cbn [truthy negb].
  exact (for_each_appends (extract_citation_appends book) acc (c :: cs)).
Qed.

Lemma extract_docs_appends :
  appends (fun acc docs => for_each docs extract_doc acc).
Proof. exact (for_each_appends extract_doc_appends). Qed.

(** X1: records keep the order of the documents: extracting two lists of
    documents one after the other yields the records of the first list
    followed by those of the second. *)
Theorem extract_docs_app (docs1 docs2 : list json)
  (r1 r2 : list AnnotationRecord)
  (H1 : extract_docs docs1 = Ret r1)
  (H2 : extract_docs docs2 = Ret r2) :
  extract_docs (docs1 ++ docs2) = Ret (r1 ++ r2).
Proof.
  unfold extract_docs in *. rewrite for_each_app, H1. simpl.
  pose proof (extract_docs_appends [] docs2) as H. simpl in H.
  rewrite H2 in H. destruct H as [p [Hp Hall]]. simpl in Hp. subst p.
  apply Hall.
Qed.

(** *** The invariant of the records *)

Lemma for_each_invariant {A S} (body : S -> A -> outcome S) (I : S -> Prop) :
  (forall acc x acc', I acc -> body acc x = Ret acc' -> I acc') ->
  forall l acc res, I acc -> for_each l body acc = Ret res -> I res.
Proof.
  intros Hb l. induction l as [|x l IH]; simpl; intros acc res Hacc H.
  - injection H as <-. exact Hacc.
  - destruct (body acc x) as [acc'|e] eqn:E; simpl in H; [|discriminate].
    exact (IH acc' res (Hb acc x acc' Hacc E) H).
Qed.

Lemma extract_citation_has_texts (book : json) (acc : list AnnotationRecord)
  (c : json) (acc' : list AnnotationRecord) :
  Forall has_texts acc -> extract_citation book acc c = Ret acc' ->
  Forall has_texts acc'.
Proof.
  intros Hacc. destruct c; try discriminate.
  rewrite extract_citation_dict.
  destruct (complete items) eqn:E; intros [= <-]; [|exact Hacc].
  apply Forall_app. split; [exact Hacc|].
  unfold complete in E. apply andb_true_iff in E. destruct E as [Eq Ea].
  constructor; [|constructor].
  split; simpl; apply has_text_truthy; assumption.
Qed.

Lemma extract_doc_has_texts (acc : list AnnotationRecord) (doc : json)
  (acc' : list AnnotationRecord) :
  Forall has_texts acc -> extract_doc acc doc = Ret acc' ->
  Forall has_texts acc'.
Proof.
  intros Hacc. unfold extract_doc.
  destruct (resolve_book_name doc) as [book|e]; simpl; [|discriminate].
  destruct (py_get doc (lit "citations") JNull) as [citations|e]; simpl;
    [|discriminate].
  destruct (negb (truthy citations) || negb (isinstance_list citations)).
  - intros [= <-]. exact Hacc.
  - destruct citations as [| | | | |cits|]; try (intros [= <-]; exact Hacc).
    apply (@for_each_invariant _ _ (extract_citation book)
             (Forall has_texts) (extract_citation_has_texts book)).
    exact Hacc.
Qed.

Lemma print_then_nil (stdout_encodes : char -> bool) (s : pystr) (w w' : world)
  (records : list AnnotationRecord) :
  (print stdout_encodes s ;; mret []) w = (Ret records, w') -> records = [].
Proof.
  unfold mbind, print, mret. destruct (encodable stdout_encodes s).
  - intros [= <- _]. reflexivity.
  - discriminate.
Qed.

(** X2: whatever the input, every record that the extractor returns has
    a non-empty quote and a non-empty annotation. *)
Theorem extracted_records_have_texts (stdout_encodes : char -> bool)
  (filepath : pystr) (load : outcome json)
  (w w' : world) (records : list AnnotationRecord)
  (H : extract_annotations_from_json stdout_encodes filepath load w
       = (Ret records, w')) :
  Forall has_texts records.
Proof.
  unfold extract_annotations_from_json in H.
  destruct load as [data|e].
  - unfold mbind at 1, lift in H.
    destruct (docs_missing data) as [[|]|e].
    + apply print_then_nil in H. subst. constructor.
    + unfold mbind in H.
      destruct (py_getitem data (lit "docs")) as [docs|e]; [|discriminate].
      destruct docs as [| | | | |docs|]; try discriminate.
      injection H as H _.
      exact (@for_each_invariant _ _ extract_doc (Forall has_texts)
               extract_doc_has_texts docs [] records (Forall_nil _) H).
    + discriminate.
  - destruct e; try discriminate;
      apply print_then_nil in H; subst; constructor.
Qed.

End ExtractorMore.

Lemma extract_docs_app_witness :
  Reading.extract_docs (sample_docs_one ++ sample_docs_two)
  = Ret (map (Spec.record_of (JStr (lit "T")))
             (filter Spec.complete sample_citations)
         ++ map (Spec.record_of (JStr (lit "F")))
                (filter Spec.complete sample_citations)).
Proof.
  apply (@extract_docs_app sample_docs_one sample_docs_two).
  - reflexivity.
  - reflexivity.
Defined.

Lemma extracted_records_have_texts_witness :
  Forall Reading.has_texts
         (map (Spec.record_of (JStr (lit "T")))
              (filter Spec.complete sample_citations)).
Proof.
  apply (@extracted_records_have_texts sample_encodes (lit "export.json")
           (Ret (JObj [(lit "docs", JArr sample_docs_one)])) world0 world0).
  reflexivity.
Defined.

(** ** Malformed and empty input *)

Section InputShapes.

Import Spec Reading.

Variable stdout_encodes : char -> bool.
Variable str_other : json -> pystr.
Variable markup_ok : pystr -> bool.
Variable str_encode_error : pystr -> pystr.
Variable build_error : world -> pystr -> list flowable -> option pystr.

Lemma extract_object_docs (path : pystr) (d : pydict) (docs : list json)
  (w : world) :
  dict_get d (lit "docs") = Some (JArr docs) ->
  extract_annotations_from_json stdout_encodes path (Ret (JObj d)) w = (extract_docs docs, w).
Proof.
  intro H. unfold extract_annotations_from_json, mbind, lift, docs_missing.
  unfold py_in, py_getitem, obind. rewrite H. reflexivity.
Qed.

Lemma main_extraction_raises (path : pystr) (pdf : bool) (load : outcome json)
  (w w' : world) (e : exn) :
  extract_annotations_from_json stdout_encodes path load w = (Raise e, w') ->
  main stdout_encodes str_other markup_ok str_encode_error build_error path pdf load w = (Raise e, w').
Proof. intro H. unfold main, mbind. rewrite H. reflexivity. Qed.

Lemma extract_doc_not_object (acc : list AnnotationRecord) (doc : json) :
  (forall items, doc <> JObj items) ->
  extract_doc acc doc = Raise AttributeError.
Proof.
  intro H. destruct doc; try reflexivity. exfalso. exact (H items eq_refl).
Qed.

(** X3: an entry of [docs] that is not an object makes the program end
    with [AttributeError]: the records of the documents before it are
    lost, nothing is printed and no file is written. *)
Theorem malformed_document_aborts (path : pystr) (pdf : bool) (w : world)
  (d : pydict) (before after : list json) (bad : json)
  (collected : list AnnotationRecord)
  (Hdocs : dict_get d (lit "docs") = Some (JArr (before ++ bad :: after)))
  (Hbefore : extract_docs before = Ret collected)
  (Hbad : forall items, bad <> JObj items) :
  main stdout_encodes str_other markup_ok str_encode_error build_error path pdf (Ret (JObj d)) w
  = (Raise AttributeError, w).
Proof.
  apply main_extraction_raises.
  rewrite (extract_object_docs path d w Hdocs). f_equal.
  unfold extract_docs in *. rewrite for_each_app, Hbefore. simpl.
  rewrite (extract_doc_not_object collected Hbad). reflexivity.
Qed.

(** X4: a citation that is not an object makes the document raise
    [AttributeError], after any number of well-formed citations. *)
Theorem malformed_citation_raises (doc : pydict) (acc : list AnnotationRecord)
  (before : list pydict) (after : list json) (bad : json)
  (Hdata : data_ok doc)
  (Hcit : dict_get doc (lit "citations")
          = Some (JArr (map JObj before ++ bad :: after)))
  (Hbad : forall items, bad <> JObj items) :
  extract_doc acc (JObj doc) = Raise AttributeError.
Proof.
  destruct (resolve_book_name_total doc Hdata) as [book Hbook].
  unfold extract_doc. rewrite Hbook. simpl.
  unfold dict_get_default. rewrite Hcit.
  assert (Hloop : for_each (map JObj before ++ bad :: after)
                    (extract_citation book) acc = Raise AttributeError).
  { rewrite for_each_app, extract_citations_dicts. simpl.
    destruct bad; try reflexivity. exfalso. exact (Hbad items eq_refl). }
  destruct (map JObj before ++ bad :: after) eqn:E.
  - destruct before; discriminate E.
  - exact Hloop.
Qed.

(** X5: a document whose [data] is there and is not an object raises
    [AttributeError] whatever its citations are, also when it has none. *)
Theorem data_not_object_raises (doc : pydict) (acc : list AnnotationRecord)
  (v : json)
  (Hdata : dict_get doc (lit "data") = Some v)
  (Hv : forall items, v <> JObj items) :
  extract_doc acc (JObj doc) = Raise AttributeError.
Proof.
  unfold extract_doc, resolve_book_name, py_get, dict_get_default, obind.
  rewrite Hdata. destruct v; try reflexivity.
  exfalso. exact (Hv items eq_refl).
Qed.

(** X6: a document without a non-empty citations list (the key absent,
    or a value that is empty or not a list) is skipped: it adds no record
    and raises nothing. *)
Theorem document_without_citations_skipped (doc : pydict)
  (acc : list AnnotationRecord)
  (Hdata : data_ok doc)
  (Hnone : ~ has_citations doc) :
  extract_doc acc (JObj doc) = Ret acc.
Proof.
  destruct (resolve_book_name_total doc Hdata) as [book Hbook].
  unfold extract_doc. rewrite Hbook. simpl.
  unfold dict_get_default.
  destruct (dict_get doc (lit "citations")) as [v|] eqn:E; [|reflexivity].
  destruct v as [| | | | |cits|];
    cbn [isinstance_list negb]; rewrite ?orb_true_r; try reflexivity.
  destruct cits as [|c cs]; [reflexivity|].
  exfalso. apply Hnone. exists c, cs. exact E.
Qed.

(** X7: the name of a document is resolved without an exception when
    [data] is absent or an object, and it is empty (falsy) only when the
    file-name title is present with an empty value. *)
Theorem resolved_name_empty_only_by_file_title (doc : pydict)
  (Hdata : data_ok doc) :
  exists name, resolve_book_name (JObj doc) = Ret name /\
               (truthy name = false -> empty_file_title doc).
Proof.
  unfold data_ok in Hdata.
  destruct (dict_get doc (lit "data")) as [v|] eqn:E.
  - destruct v as [| | | | | |data]; try contradiction.
    rewrite (resolve_book_name_data doc E). eexists. split; [reflexivity|].
    destruct (truthy (field data (lit "doc_title"))) eqn:Et.
    + intro H. rewrite H in Et. discriminate.
    + destruct (dict_get data (lit "doc_file_name_title")) as [f|] eqn:Ef.
      * intro H. exists data, f. auto.
      * discriminate.
  - rewrite (resolve_book_name_no_data doc E). eexists.
    split; [reflexivity | discriminate].
Qed.

Lemma main_unencodable_path (path : pystr) (pdf : bool) (w : world)
  (load : outcome json) :
  load = Raise FileNotFoundError \/ load = Raise JSONDecodeError ->
  encodable stdout_encodes path = false ->
  main stdout_encodes str_other markup_ok str_encode_error build_error path pdf load w = (Raise UnicodeEncodeError, w).
Proof.
  intros [-> | ->] H;
    unfold main, mbind at 1, extract_annotations_from_json, mbind;
    (rewrite print_unencodable; [reflexivity|]);
    rewrite encodable_app, H; apply andb_false_r.
Qed.

(** X8: a missing file, invalid JSON and an object without a [docs] list
    all end the same way in both modes: the message of the extractor,
    the notice that nothing was found, exit status 0 and no file
    written. The messages for a missing file and for invalid JSON hold
    the path: when the standard output cannot encode it, the print of
    the message raises [UnicodeEncodeError] instead. *)
Theorem input_error_exits_zero (path : pystr) (pdf : bool)
  (load : outcome json) (w : world)
  (Herr : input_error load) :
  main stdout_encodes str_other markup_ok str_encode_error build_error path pdf load w
  = if encodable stdout_encodes (error_message path load)
    then (Raise (SystemExit 0),
          mkWorld (stdout w ++ [error_message path load;
             lit "No annotations found or an error occurred while reading the JSON."])
            (files w))
    else (Raise UnicodeEncodeError, w).
Proof.
  destruct Herr as [-> | [-> | [d [-> Hd]]]]; cbn [error_message].
  - rewrite encodable_app.
    destruct (encodable stdout_encodes path) eqn:E.
    + rewrite (main_missing_file stdout_encodes str_other markup_ok str_encode_error build_error path pdf w E). reflexivity.
    + rewrite andb_false_r. apply main_unencodable_path; auto.
  - rewrite encodable_app.
    destruct (encodable stdout_encodes path) eqn:E.
    + rewrite (main_invalid_json stdout_encodes str_other markup_ok str_encode_error build_error path pdf w E). reflexivity.
    + rewrite andb_false_r. apply main_unencodable_path; auto.
  - rewrite (@main_object_without_docs stdout_encodes str_other markup_ok str_encode_error build_error path pdf w d Hd).
    rewrite encodable_ascii by reflexivity. reflexivity.
Qed.

(** X9: any other exception of [open] or [json.load] (a permission
    error, undecodable bytes) is not caught: the program ends with it,
    having printed nothing. *)
Theorem other_load_error_propagates (path : pystr) (pdf : bool) (w : world)
  (e : exn)
  (Hnf : e <> FileNotFoundError) (Hjs : e <> JSONDecodeError) :
  main stdout_encodes str_other markup_ok str_encode_error build_error path pdf (Raise e) w = (Raise e, w).
Proof.
  apply main_extraction_raises.
  destruct e; try reflexivity; contradiction.
Qed.

(** X10: when the documents yield no record at all (no document, or no
    complete citation) the program prints only the notice and exits with
    status 0, in both modes. *)
Theorem no_records_exits_zero (path : pystr) (pdf : bool) (w : world)
  (d : pydict) (docs : list json)
  (Hdocs : dict_get d (lit "docs") = Some (JArr docs))
  (Hnone : extract_docs docs = Ret []) :
  main stdout_encodes str_other markup_ok str_encode_error build_error path pdf (Ret (JObj d)) w
  = (Raise (SystemExit 0),
     mkWorld (stdout w ++
        [lit "No annotations found or an error occurred while reading the JSON."])
       (files w)).
Proof.
  unfold main. unfold mbind at 1.
  rewrite (extract_object_docs path d w Hdocs), Hnone.
  unfold mbind.
  rewrite print_encodable by (apply encodable_ascii; reflexivity).
  reflexivity.
Qed.

End InputShapes.

Lemma malformed_document_aborts_witness :
  main sample_encodes sample_str_other sample_markup_ok sample_str_encode_error build_always (lit "export.json") true
       (Ret (JObj sample_export_bad_doc)) world0
  = (Raise AttributeError, world0).
Proof.
  apply (@malformed_document_aborts sample_encodes sample_str_other sample_markup_ok sample_str_encode_error build_always
           (lit "export.json") true world0 sample_export_bad_doc
           sample_docs_one sample_docs_two (JStr (lit "oops"))
           (map (Spec.record_of (JStr (lit "T")))
                (filter Spec.complete sample_citations))).
  - reflexivity.
  - reflexivity.
  - discriminate.
Defined.

Lemma malformed_citation_raises_witness :
  extract_doc [] (JObj sample_doc_bad_citation) = Raise AttributeError.
Proof.
  apply (@malformed_citation_raises sample_doc_bad_citation []
           sample_citations [] JNull).
  - exact I.
  - reflexivity.
  - discriminate.
Defined.

Lemma data_not_object_raises_witness :
  extract_doc [] (JObj sample_doc_null_data) = Raise AttributeError.
Proof.
  apply (@data_not_object_raises sample_doc_null_data [] JNull).
  - reflexivity.
  - discriminate.
Defined.

Lemma document_without_citations_skipped_witness :
  extract_doc [] (JObj sample_doc_no_citations) = Ret [].
Proof.
  apply (@document_without_citations_skipped sample_doc_no_citations []).
  - exact I.
  - intros [c [cs H]]. discriminate H.
Defined.

Lemma resolved_name_empty_only_by_file_title_witness :
  exists name, resolve_book_name (JObj sample_doc) = Ret name /\
               (truthy name = false -> Reading.empty_file_title sample_doc).
Proof.
  apply (@resolved_name_empty_only_by_file_title sample_doc).
  exact I.
Defined.

Lemma input_error_exits_zero_witness :
  main sample_encodes sample_str_other sample_markup_ok sample_str_encode_error build_always (lit "gone.json") true (Raise FileNotFoundError) world0
  = if encodable sample_encodes
         (Reading.error_message (lit "gone.json") (Raise FileNotFoundError))
    then (Raise (SystemExit 0),
          mkWorld (stdout world0
                   ++ [Reading.error_message (lit "gone.json")
                         (Raise FileNotFoundError);
             lit "No annotations found or an error occurred while reading the JSON."])
            (files world0))
    else (Raise UnicodeEncodeError, world0).
Proof.
  apply (@input_error_exits_zero sample_encodes sample_str_other sample_markup_ok sample_str_encode_error build_always
           (lit "gone.json") true (Raise FileNotFoundError) world0).
  left. reflexivity.
Defined.

Lemma other_load_error_propagates_witness :
  main sample_encodes sample_str_other sample_markup_ok sample_str_encode_error build_always (lit "locked.json") false
       (Raise OtherError) world0
  = (Raise OtherError, world0).
Proof.
  apply (@other_load_error_propagates sample_encodes sample_str_other sample_markup_ok sample_str_encode_error build_always
           (lit "locked.json") false world0 OtherError); discriminate.
Defined.

Lemma no_records_exits_zero_witness :
  main sample_encodes sample_str_other sample_markup_ok sample_str_encode_error build_always (lit "export.json") true
       (Ret (JObj sample_export_no_records)) world0
  = (Raise (SystemExit 0),
     mkWorld (stdout world0 ++
        [lit "No annotations found or an error occurred while reading the JSON."])
       (files world0)).
Proof.
  apply (@no_records_exits_zero sample_encodes sample_str_other sample_markup_ok sample_str_encode_error build_always
           (lit "export.json") true world0 sample_export_no_records
           [JObj sample_doc_no_citations]).
  - reflexivity.
  - reflexivity.
Defined.

(** ** More on file names *)

Section FileNamesMore.

Import Spec.

(** X11: the titles that sanitizing leaves unchanged are exactly those
    with none of the stripped characters, no space and at most 200
    characters. *)
Theorem sanitize_filename_fixed_points (s : pystr) :
  sanitize_filename s = s <-> plain_title s.
Proof.
  rewrite sanitize_filename_sanitized. split.
  - intro H. rewrite <- H.
    split; [apply sanitized_plain_chars | apply sanitized_length].
  - apply sanitized_fixes_plain.
Qed.

Lemma suffix_plain : Forall plain_char (lit "_Annotations.pdf").
Proof.
  apply Forall_forall. intros c Hc. simpl in Hc.
  repeat (destruct Hc as [<- | Hc]; [split; [reflexivity | discriminate]|]).
  contradiction.
Qed.

(** X12: the file name of a book holds none of the characters illegal in
    file names, in particular no separator, holds no space, and has at
    most 216 characters. *)
Theorem pdf_name_safe (title : pystr) :
  Forall (fun c => stripped c = false /\ c <> space) (pdf_name title) /\
  (List.length (pdf_name title) <= 216)%nat.
Proof.
  unfold pdf_name. rewrite sanitize_filename_sanitized. split.
  - apply Forall_app. split; [apply sanitized_plain_chars | apply suffix_plain].
  - rewrite length_app. pose proof (sanitized_length title) as H.
    change (List.length (lit "_Annotations.pdf")) with 16%nat. lia.
Qed.


(** X14: a title made only of stripped characters, the empty title
    included, gets the bare suffix as its file name. *)
Theorem pdf_name_of_stripped_title (title : pystr)
  (Hall : Forall (fun c => stripped c = true) title) :
  pdf_name title = lit "_Annotations.pdf".
Proof.
  unfold pdf_name. rewrite sanitize_filename_sanitized.
  assert (Hs : strip_illegal title = []).
  { unfold strip_illegal. induction Hall as [|c t Hc _ IH]; [reflexivity|].
    simpl. rewrite Hc. exact IH. }
  unfold sanitized. rewrite Hs. reflexivity.
Qed.

Lemma firstn_full_app {A} (n : nat) (l1 l2 : list A) :
  (n <= List.length l1)%nat -> firstn n (l1 ++ l2) = firstn n l1.
Proof.
  intro H. rewrite firstn_app.
  replace (n - List.length l1)%nat with 0%nat by lia.
  rewrite firstn_0, app_nil_r. reflexivity.
Qed.

(** X15: once a title fills the 200 characters, whatever follows it is
    cut off: the longer title has the same sanitized form. *)
Theorem sanitize_filename_cuts_tail (s t : pystr)
  (Hfull : List.length (sanitize_filename s) = 200%nat) :
  sanitize_filename (s ++ t) = sanitize_filename s.
Proof.
  rewrite !sanitize_filename_sanitized in *.
  unfold sanitized in *. unfold strip_illegal, spaces_to_underscores in *.
  rewrite filter_app, map_app.
  apply firstn_full_app.
  rewrite length_firstn in Hfull. lia.
Qed.

End FileNamesMore.

Lemma pdf_name_of_stripped_title_witness :
  pdf_name (lit "??") = lit "_Annotations.pdf".
Proof.
  apply (@pdf_name_of_stripped_title (lit "??")).
  repeat constructor.
Defined.

Lemma sanitize_filename_cuts_tail_witness :
  sanitize_filename (sample_long_title ++ lit "b")
  = sanitize_filename sample_long_title.
Proof.
  apply (@sanitize_filename_cuts_tail sample_long_title (lit "b")).
  reflexivity.
Defined.

(** ** More on grouping *)

Section GroupingMore.

Import Spec Reading.

Lemma total_rows_app (a b : books) :
  total_rows (a ++ b) = (total_rows a + total_rows b)%nat.
Proof. unfold total_rows. rewrite map_app, list_sum_app. reflexivity. Qed.

Lemma books_append_rows (books_data : books) (k : dict_key) (row : pydict) :
  total_rows (books_append books_data k row)
  = (total_rows books_data + if books_contains books_data k then 1 else 0)%nat.
Proof.
  induction books_data as [|[name rows] rest IH]; [reflexivity|].
  unfold books_contains in *. simpl.
  destruct (is_key k name); unfold total_rows in *; simpl.
  - rewrite length_app. simpl. lia.
  - rewrite IH. lia.
Qed.

Lemma books_contains_added (books_data : books) (k : dict_key) (name : json)
  (rows : list pydict) :
  is_key k name = true ->
  books_contains (books_data ++ [(name, rows)]) k = true.
Proof.
  intro H. unfold books_contains. rewrite existsb_app. simpl.
  rewrite H. apply orb_true_iff. right. reflexivity.
Qed.

Lemma group_step_rows (books_data books_data' : books)
  (item : AnnotationRecord) :
  group_step books_data item = Ret books_data' ->
  total_rows books_data' = S (total_rows books_data).
Proof.
  unfold group_step.
  destruct (key_of (book_name item)) as [k|e] eqn:Ek; simpl; [|discriminate].
  intros [= <-]. rewrite books_append_rows.
  destruct (books_contains books_data k) eqn:Ec; simpl.
  - rewrite Ec. lia.
  - rewrite books_contains_added by (apply is_key_iff; exact Ek).
    rewrite total_rows_app. unfold total_rows at 2. simpl. lia.
Qed.

Lemma for_each_group_step_rows (records : list AnnotationRecord) :
  forall acc books_data,
    for_each records group_step acc = Ret books_data ->
    total_rows books_data = (total_rows acc + List.length records)%nat.
Proof.
  induction records as [|r rs IH]; simpl; intros acc books_data H.
  - injection H as <-. lia.
  - destruct (group_step acc r) as [acc'|e] eqn:E; simpl in H; [|discriminate].
    rewrite (IH acc' books_data H), (group_step_rows acc r E). lia.
Qed.

(** X16: grouping neither loses nor repeats a record: the rows of all the
    books together are as many as the records. *)
Theorem group_by_book_keeps_rows (records : list AnnotationRecord)
  (books_data : books)
  (H : group_by_book records = Ret books_data) :
  total_rows books_data = List.length records.
Proof.
  unfold group_by_book in H.
  rewrite (for_each_group_step_rows records [] H). reflexivity.
Qed.

(** *** Names that cannot be keys *)

Lemma group_step_hashable (books_data : books) (item : AnnotationRecord) :
  hashable (book_name item) = true ->
  exists books_data', group_step books_data item = Ret books_data'.
Proof.
  intro H. destruct (hashable_key_of _ H) as [k Hk].
  unfold group_step. rewrite Hk. simpl. eexists. reflexivity.
Qed.

Lemma group_step_unhashable (books_data : books) (item : AnnotationRecord) :
  hashable (book_name item) = false ->
  group_step books_data item = Raise TypeError.
Proof.
  intro H. unfold group_step.
  destruct (book_name item); try discriminate H; reflexivity.
Qed.

Lemma for_each_group_step_unhashable (records : list AnnotationRecord) :
  Exists (fun r => hashable (book_name r) = false) records ->
  forall acc, for_each records group_step acc = Raise TypeError.
Proof.
  induction records as [|r rs IH]; intros Hex acc.
  - inversion Hex.
  - simpl. destruct (hashable (book_name r)) eqn:Eh.
    + destruct (group_step_hashable acc r Eh) as [acc' ->]. simpl.
      apply IH. inversion Hex as [? ? Hr|? ? Hrs]; subst; [|exact Hrs].
      rewrite Hr in Eh. discriminate.
    + rewrite (group_step_unhashable acc r Eh). reflexivity.
Qed.

(** X17: one record whose book name is a list or an object makes the
    whole grouping raise [TypeError], wherever it stands. *)
Theorem group_by_book_unhashable (records : list AnnotationRecord)
  (Hex : Exists (fun r => hashable (book_name r) = false) records) :
  group_by_book records = Raise TypeError.
Proof.
  unfold group_by_book. apply for_each_group_step_unhashable. exact Hex.
Qed.

(** *** The shape of the grouped map *)

Lemma group_by_book_ret_hashable (records : list AnnotationRecord)
  (books_data : books) :
  group_by_book records = Ret books_data ->
  Forall (fun r => hashable (book_name r) = true) records.
Proof.
  intro H. apply Forall_forall. intros r Hr.
  destruct (hashable (book_name r)) eqn:Eh; [reflexivity|].
  unfold group_by_book in H.
  rewrite for_each_group_step_unhashable in H; [discriminate|].
  apply Exists_exists. exists r. split; assumption.
Qed.

Lemma same_book_refl (b : json) : hashable b = true -> same_book b b = true.
Proof.
  intro H. destruct (hashable_key_of _ H) as [k Hk].
  rewrite (same_book_is_key b b Hk). apply is_key_iff. exact Hk.
Qed.

Lemma grouped_distinct (records : list AnnotationRecord) :
  ForallOrdPairs (fun a b => same_book (fst a) (fst b) = false)
                 (grouped records).
Proof.
  unfold grouped.
  induction (first_seen_distinct (map book_name records)) as [|b l Hb _ IH];
    simpl; constructor; [|exact IH].
  apply Forall_forall. intros entry Hin. apply in_map_iff in Hin.
  destruct Hin as [c [<- Hc]]. simpl.
  rewrite Forall_forall in Hb. exact (Hb c Hc).
Qed.

(** X18: in the grouped map no book has an empty list of rows, no two
    entries are the same book, and there is a book as soon as there is a
    record: in the pipeline the guard of line 86 and the message of line
    179 are never reached. *)
Theorem group_by_book_shape (records : list AnnotationRecord)
  (books_data : books)
  (H : group_by_book records = Ret books_data) :
  Forall (fun entry => snd entry <> []) books_data /\
  ForallOrdPairs (fun a b => same_book (fst a) (fst b) = false) books_data /\
  (records <> [] -> books_data <> []).
Proof.
  pose proof (group_by_book_ret_hashable records H) as Hh.
  unfold group_by_book in H.
  rewrite (for_each_group_step_grouped Hh) in H. injection H as <-.
  split; [|split].
  - unfold grouped. apply Forall_forall. intros entry Hin.
    apply in_map_iff in Hin. destruct Hin as [b [<- Hb]]. simpl.
    apply first_seen_In in Hb. apply in_map_iff in Hb.
    destruct Hb as [r [<- Hr]].
    rewrite Forall_forall in Hh. specialize (Hh r Hr).
    assert (Hin : In r (records_of (book_name r) records)).
    { unfold records_of. apply filter_In. split; [exact Hr|].
      apply same_book_refl. exact Hh. }
    intro E. apply map_eq_nil in E. rewrite E in Hin. exact Hin.
  - apply grouped_distinct.
  - destruct records as [|r rs]; [intro Hne; contradiction Hne; reflexivity|].
    intros _. discriminate.
Qed.

End GroupingMore.

Lemma group_by_book_keeps_rows_witness :
  Reading.total_rows (Spec.grouped sample_records)
  = List.length sample_records.
Proof.
  apply (@group_by_book_keeps_rows sample_records
           (Spec.grouped sample_records)).
  reflexivity.
Defined.

Lemma group_by_book_unhashable_witness :
  group_by_book sample_records_unhashable = Raise TypeError.
Proof.
  apply (@group_by_book_unhashable sample_records_unhashable).
  apply Exists_cons_tl. apply Exists_cons_hd. reflexivity.
Defined.

Lemma group_by_book_shape_witness :
  Forall (fun entry => snd entry <> []) (Spec.grouped sample_records) /\
  ForallOrdPairs (fun a b => Spec.same_book (fst a) (fst b) = false)
                 (Spec.grouped sample_records) /\
  (sample_records <> [] -> Spec.grouped sample_records <> []).
Proof.
  apply (@group_by_book_shape sample_records (Spec.grouped sample_records)).
  reflexivity.
Defined.

(** ** More on the reporter *)

Section ReporterMore.

Import Spec Reading.

Variable stdout_encodes : char -> bool.
Variable str_other : json -> pystr.
Variable markup_ok : pystr -> bool.
Variable str_encode_error : pystr -> pystr.
Variable build_error : world -> pystr -> list flowable -> option pystr.

Lemma mfor_app {A} (body : A -> M unit) (l1 l2 : list A) (w : world) :
  mfor (l1 ++ l2) body w
  = match mfor l1 body w with
    | (Ret _, w') => mfor l2 body w'
    | (Raise e, w') => (Raise e, w')
    end.
Proof.
  revert w. induction l1 as [|x l1 IH]; intro w; simpl; [reflexivity|].
  unfold mbind. destruct (body x w) as [[[]|e] w']; [apply IH | reflexivity].
Qed.

(** *** Console mode *)

Lemma print_record_lines (item : AnnotationRecord) (w : world) :
  print_record stdout_encodes str_other item w
  = mfor (record_lines str_other item) (print stdout_encodes) w.
Proof.
  unfold print_record, record_lines. cbn [mfor]. unfold mbind, print, mret.
  repeat match goal with
         | |- context [if encodable ?e ?s then _ else _] =>
             destruct (encodable e s)
         end; reflexivity.
Qed.

Lemma print_records_lines (records : list AnnotationRecord) (w : world) :
  mfor records (print_record stdout_encodes str_other) w
  = mfor (flat_map (record_lines str_other) records) (print stdout_encodes) w.
Proof.
  revert w. induction records as [|r rs IH]; intro w; [reflexivity|].
  cbn [flat_map]. rewrite mfor_app, <- print_record_lines.
  cbn [mfor]. unfold mbind.
  destruct (print_record stdout_encodes str_other r w) as [[[]|e] w']; [apply IH | reflexivity].
Qed.

(** X19: in console mode, when extraction returns records, the program
    prints the heading and then the five lines of every record in the
    order of extraction, up to the first line that the standard output
    cannot encode: it returns normally when every line can be encoded
    and ends with [UnicodeEncodeError] at the first that cannot. It
    writes no file. *)
Theorem main_console_prints_records (path : pystr) (load : outcome json)
  (w w' : world) (r : AnnotationRecord) (rs : list AnnotationRecord)
  (Hext : extract_annotations_from_json stdout_encodes path load w = (Ret (r :: rs), w')) :
  main stdout_encodes str_other markup_ok str_encode_error build_error path false load w
  = (if forallb (encodable stdout_encodes) (console_lines str_other (r :: rs))
     then Ret tt else Raise UnicodeEncodeError,
     mkWorld (stdout w'
              ++ printed_lines stdout_encodes
                   (console_lines str_other (r :: rs)))
             (files w')).
Proof.
  rewrite <- print_lines. unfold console_lines. cbn [mfor].
  unfold main. unfold mbind at 1. rewrite Hext.
  unfold mbind at 1. cbn [mret]. unfold mbind.
  destruct (print stdout_encodes
              ([newline] ++ lit "Extracted Annotations (Console Output):") w')
    as [[[]|e] w'']; [apply print_records_lines | reflexivity].
Qed.

(** *** PDF mode *)

Lemma build_and_report_effects (title file : pystr) (story : list flowable)
  (w : world) :
  let result := build_and_report stdout_encodes str_encode_error build_error title file story w in
  (exists lines, stdout (snd result) = stdout w ++ lines /\
                 (List.length lines <= 1)%nat /\
                 (fst result = Ret tt -> List.length lines = 1%nat)) /\
  (files (snd result) = files w \/
   files (snd result) = files w ++ [(file, story)]).
Proof.
  cbn zeta. unfold build_and_report, print.
  destruct (build_error w file story) as [cause|].
  - destruct (encodable stdout_encodes (error_line title cause)).
    + split; [|left; reflexivity].
      eexists. split; [reflexivity|]. split; auto.
    + split; [|left; reflexivity].
      exists []. rewrite app_nil_r. repeat split; auto. discriminate.
  - destruct (encodable stdout_encodes
                (lit "Successfully generated PDF: " ++ file)).
    + split; [|right; reflexivity].
      eexists. split; [reflexivity|]. split; auto.
    + destruct (encodable stdout_encodes
                  (error_line title
                     (str_encode_error
                        (lit "Successfully generated PDF: " ++ file)))).
      * split; [|right; reflexivity].
        eexists. split; [reflexivity|]. split; auto.
      * split; [|right; reflexivity].
        exists []. cbn [snd fst stdout]. rewrite app_nil_r.
        repeat split; auto. discriminate.
Qed.

(** X20: what one call of [save_book_to_pdf] can do: it never removes
    output, prints exactly one line unless it raises, and either writes
    nothing or writes one file, named after the sanitized title under the
    base path, whose story is the title, a spacer and the table of all
    the rows; the notice of line 124 is in no written document. *)
Theorem save_book_to_pdf_effects (book_title : json)
  (book_annotations : list pydict) (base_path : pystr) (w : world) :
  let result := save_book_to_pdf stdout_encodes str_other markup_ok str_encode_error build_error book_title book_annotations base_path w in
  (exists lines, stdout (snd result) = stdout w ++ lines /\
                 (List.length lines <= 1)%nat /\
                 (fst result = Ret tt -> List.length lines = 1%nat)) /\
  (files (snd result) = files w \/
   (isinstance_str book_title = true /\ book_annotations <> [] /\
    files (snd result)
    = files w ++ [document_of str_other base_path
                    (book_title, book_annotations)])).
Proof.
  assert (Hquiet : forall e : exn,
    (exists lines, stdout w = stdout w ++ lines /\
                   (List.length lines <= 1)%nat /\
                   (@Raise unit e = Ret tt -> List.length lines = 1%nat))).
  { intro e. exists []. rewrite app_nil_r. repeat split; auto. discriminate. }
  destruct book_annotations as [|ann anns].
  - cbn zeta. cbn [save_book_to_pdf]. unfold print.
    destruct (encodable stdout_encodes
                (lit "No annotations to save for "
                 ++ py_str str_other book_title ++ lit ".")).
    + split; [|left; reflexivity].
      eexists. split; [reflexivity|]. split; auto.
    + split; [apply Hquiet | left; reflexivity].
  - destruct book_title as [| | | | title| |];
      try (cbn zeta; split; [apply Hquiet | left; reflexivity]).
    cbn zeta. cbn [save_book_to_pdf]. unfold mbind, lift.
    destruct (story_texts_cases str_other markup_ok title (ann :: anns))
      as [Hok | Hbad].
    + rewrite (@build_story_ok str_other markup_ok title ann anns Hok).
      pose proof (build_and_report_effects title
                    (pdf_filename base_path title)
                    [Paragraph title StyleH1Centered; Spacer 1 18;
                     Table (table_header
                            :: map (row_cells str_other) (ann :: anns))
                           [54; 216; 216]%Z] w) as [Hlines Hfiles].
      cbn zeta in Hlines, Hfiles. split; [exact Hlines|].
      destruct Hfiles as [Hf | Hf]; [left; exact Hf | right].
      split; [reflexivity|]. split; [discriminate|]. exact Hf.
    + rewrite (@build_story_bad str_other markup_ok title (ann :: anns) Hbad).
      split; [apply Hquiet | left; reflexivity].
Qed.

Lemma save_book_to_pdf_success (entry : json * list pydict) (w : world) :
  (forall w' file story, build_error w' file story = None) ->
  renderable entry ->
  presentable stdout_encodes str_other markup_ok entry ->
  save_book_to_pdf stdout_encodes str_other markup_ok str_encode_error build_error (fst entry) (snd entry) (lit ".") w
  = (Ret tt,
     mkWorld (stdout w ++ [success_line entry])
             (files w ++ [document_of str_other (lit ".") entry])).
Proof.
  intros Hok [Ht Hrows] [Htexts Hline]. destruct entry as [title anns].
  cbn [fst snd] in *.
  destruct title; try discriminate Ht.
  destruct anns as [|ann anns]; [contradiction Hrows; reflexivity|].
  cbn [title_text] in Htexts.
  unfold success_line in Hline. cbn [fst title_text] in Hline.
  cbn [save_book_to_pdf]. unfold mbind, lift.
  rewrite (@build_story_ok str_other markup_ok s ann anns Htexts).
  unfold build_and_report. rewrite Hok, Hline.
  unfold print. cbn [stdout files]. rewrite Hline. reflexivity.
Qed.

(** X21: when no build fails, rendering books with string titles and at
    least one row each, whose texts the library accepts and whose
    success lines the standard output can encode, writes exactly one
    document per book, in the grouped order, and prints one success line
    per book. *)
Theorem render_books_all_written (books_data : books) (w : world)
  (Hok : forall w' file story, build_error w' file story = None)
  (Hbooks : Forall renderable books_data)
  (Hfit : Forall (presentable stdout_encodes str_other markup_ok) books_data) :
  render_books stdout_encodes str_other markup_ok str_encode_error build_error books_data w
  = (Ret tt,
     mkWorld (stdout w ++ map success_line books_data)
             (files w ++ map (document_of str_other (lit ".")) books_data)).
Proof.
  revert w Hfit. induction Hbooks as [|entry rest Hentry _ IH]; intros w Hfit.
  - unfold render_books. simpl. rewrite !app_nil_r. destruct w; reflexivity.
  - inversion Hfit as [|? ? Hpres Hrest]; subst.
    unfold render_books in *. cbn [mfor map]. unfold mbind.
    rewrite (@save_book_to_pdf_success entry w Hok Hentry Hpres).
    rewrite (IH _ Hrest).
    cbn [stdout files]. rewrite <- !app_assoc. reflexivity.
Qed.

(** X22: a book whose title is not a string (a number, [None], a
    boolean) ends the rendering with [TypeError] as soon as it is
    reached: the books before it are rendered, the books after it are
    not. *)
Theorem render_books_stops_at_non_string (before after : books)
  (book_title : json) (ann : pydict) (anns : list pydict) (w w' : world)
  (Hbefore : render_books stdout_encodes str_other markup_ok str_encode_error build_error before w = (Ret tt, w'))
  (Htitle : isinstance_str book_title = false) :
  render_books stdout_encodes str_other markup_ok str_encode_error build_error (before ++ (book_title, ann :: anns) :: after) w
  = (Raise TypeError, w').
Proof.
  unfold render_books in *. rewrite mfor_app, Hbefore.
  cbn [mfor fst snd]. unfold mbind.
  destruct book_title; try discriminate Htitle; reflexivity.
Qed.

(** X23: in PDF mode, when extraction returns records whose book names
    can be dict keys, the program renders the books of the grouped map of
    those records, in first-seen order, and nothing else. *)
Theorem main_pdf_renders_grouped (path : pystr) (load : outcome json)
  (w w' : world) (r : AnnotationRecord) (rs : list AnnotationRecord)
  (Hext : extract_annotations_from_json stdout_encodes path load w = (Ret (r :: rs), w'))
  (Hnames : Forall (fun x => hashable (book_name x) = true) (r :: rs)) :
  main stdout_encodes str_other markup_ok str_encode_error build_error path true load w = render_books stdout_encodes str_other markup_ok str_encode_error build_error (grouped (r :: rs)) w'.
Proof.
  unfold main. unfold mbind at 1. rewrite Hext.
  unfold mbind at 1. cbn [mret]. unfold mbind at 1, lift, group_by_book.
  rewrite (for_each_group_step_grouped Hnames).
  reflexivity.
Qed.

(** X24: in PDF mode a record whose book name is a list or an object
    ends the program with [TypeError] before any book is rendered. *)
Theorem main_pdf_unhashable_name (path : pystr) (load : outcome json)
  (w w' : world) (records : list AnnotationRecord)
  (Hext : extract_annotations_from_json stdout_encodes path load w = (Ret records, w'))
  (Hex : Exists (fun x => hashable (book_name x) = false) records) :
  main stdout_encodes str_other markup_ok str_encode_error build_error path true load w = (Raise TypeError, w').
Proof.
  unfold main. unfold mbind at 1. rewrite Hext.
  destruct records as [|r rs]; [inversion Hex|].
  unfold mbind at 1. cbn [mret]. unfold mbind at 1, lift, group_by_book.
  rewrite (for_each_group_step_unhashable Hex). reflexivity.
Qed.

End ReporterMore.

Lemma main_console_prints_records_witness :
  main sample_encodes sample_str_other sample_markup_ok sample_str_encode_error build_always (lit "export.json") false (Ret sample_export) world0
  = (if forallb (encodable sample_encodes)
          (Reading.console_lines sample_str_other (sample_record :: []))
     then Ret tt else Raise UnicodeEncodeError,
     mkWorld (stdout world0
              ++ Reading.printed_lines sample_encodes
                   (Reading.console_lines sample_str_other
                      (sample_record :: [])))
             (files world0)).
Proof.
  apply (@main_console_prints_records sample_encodes sample_str_other sample_markup_ok sample_str_encode_error build_always
           (lit "export.json") (Ret sample_export) world0 world0
           sample_record []).
  reflexivity.
Defined.

(** A quote that is a lone surrogate: on a standard output in UTF-8 the
    run ends with [UnicodeEncodeError] after the page line. *)
Lemma main_console_surrogate_sample :
  main sample_encodes sample_str_other sample_markup_ok sample_str_encode_error build_always (lit "export.json") false
    (Ret sample_export_surrogate) world0
  = (Raise UnicodeEncodeError,
     mkWorld [ [newline] ++ lit "Extracted Annotations (Console Output):";
               lit "  Book: T";
               lit "  Page: 5" ]
             []).
Proof. vm_compute. reflexivity. Qed.

Lemma render_books_all_written_witness :
  render_books sample_encodes sample_str_other sample_markup_ok sample_str_encode_error build_always sample_books world0
  = (Ret tt,
     mkWorld (stdout world0 ++ map Reading.success_line sample_books)
             (files world0
              ++ map (Reading.document_of sample_str_other (lit "."))
                     sample_books)).
Proof.
  apply (@render_books_all_written sample_encodes sample_str_other sample_markup_ok sample_str_encode_error build_always sample_books world0).
  - intros w' file story. reflexivity.
  - repeat constructor; discriminate.
  - repeat constructor.
Defined.

Lemma render_books_stops_at_non_string_witness :
  render_books sample_encodes sample_str_other sample_markup_ok sample_str_encode_error build_always
    ([(JStr (lit "A"), [sample_row])]
     ++ (JInt 7, sample_row :: []) :: [(JStr (lit "B"), [sample_row])])
    world0
  = (Raise TypeError,
     snd (render_books sample_encodes sample_str_other sample_markup_ok sample_str_encode_error build_always [(JStr (lit "A"), [sample_row])] world0)).
Proof.
  apply (@render_books_stops_at_non_string sample_encodes sample_str_other sample_markup_ok sample_str_encode_error build_always
           [(JStr (lit "A"), [sample_row])] [(JStr (lit "B"), [sample_row])]
           (JInt 7) sample_row [] world0).
  - reflexivity.
  - reflexivity.
Defined.

Lemma main_pdf_renders_grouped_witness :
  main sample_encodes sample_str_other sample_markup_ok sample_str_encode_error build_always (lit "export.json") true (Ret sample_export) world0
  = render_books sample_encodes sample_str_other sample_markup_ok sample_str_encode_error build_always (Spec.grouped (sample_record :: [])) world0.
Proof.
  apply (@main_pdf_renders_grouped sample_encodes sample_str_other sample_markup_ok sample_str_encode_error build_always
           (lit "export.json") (Ret sample_export) world0 world0
           sample_record []).
  - reflexivity.
  - repeat constructor.
Defined.

Lemma main_pdf_unhashable_name_witness :
  main sample_encodes sample_str_other sample_markup_ok sample_str_encode_error build_always (lit "export.json") true
    (Ret sample_export_list_title) world0
  = (Raise TypeError, world0).
Proof.
  apply (@main_pdf_unhashable_name sample_encodes sample_str_other sample_markup_ok sample_str_encode_error build_always
           (lit "export.json") (Ret sample_export_list_title) world0 world0
           (map (Spec.record_of (JArr [JStr (lit "A")]))
                (filter Spec.complete sample_citations))).
  - reflexivity.
  - apply Exists_cons_hd. reflexivity.
Defined.

(** ** A top level that is not an object *)

Section TopLevel.

Variable stdout_encodes : char -> bool.
Variable str_other : json -> pystr.
Variable markup_ok : pystr -> bool.
Variable str_encode_error : pystr -> pystr.
Variable build_error : world -> pystr -> list flowable -> option pystr.

(** X25: a parsed value that is not an object never reaches the loop
    over the documents. A list with no element equal to [docs] and a
    string without the substring [docs] give the message about the
    structure and exit status 0; every other value (a number, [None], a
    boolean, a list or string that holds [docs]) ends the program with
    [TypeError]. *)
Theorem non_object_top_level (path : pystr) (pdf : bool) (w : world)
  (data : json)
  (Hshape : forall d, data <> JObj d) :
  main stdout_encodes str_other markup_ok str_encode_error build_error path pdf (Ret data) w
  = match py_in (lit "docs") data with
    | Ret false =>
        no_annotations_exit w
          (lit "Error: JSON structure is not as expected. Missing 'docs' array.")
    | _ => (Raise TypeError, w)
    end.
Proof.
  destruct data as [| | | | s | l | d]; try reflexivity.
  - cbn [py_in]. destruct (str_contains s (lit "docs")) eqn:E.
    + unfold main, mbind, extract_annotations_from_json, mbind, lift,
        docs_missing. cbn [py_in obind]. rewrite E. reflexivity.
    + apply main_docs_missing. unfold docs_missing. cbn [py_in obind].
      rewrite E. reflexivity.
  - cbn [py_in].
    destruct (existsb (fun x => match x with
                                | JStr s => str_eqb (lit "docs") s
                                | _ => false
                                end) l) eqn:E.
    + unfold main, mbind, extract_annotations_from_json, mbind, lift,
        docs_missing. cbn [py_in obind]. rewrite E. reflexivity.
    + apply main_docs_missing. unfold docs_missing. cbn [py_in obind].
      rewrite E. reflexivity.
  - exfalso. exact (Hshape d eq_refl).
Qed.

End TopLevel.

Lemma non_object_top_level_witness :
  main sample_encodes sample_str_other sample_markup_ok sample_str_encode_error build_always (lit "export.json") false
       (Ret (JArr [JStr (lit "docs")])) world0
  = match py_in (lit "docs") (JArr [JStr (lit "docs")]) with
    | Ret false =>
        no_annotations_exit world0
          (lit "Error: JSON structure is not as expected. Missing 'docs' array.")
    | _ => (Raise TypeError, world0)
    end.
Proof.
  apply (@non_object_top_level sample_encodes sample_str_other sample_markup_ok sample_str_encode_error build_always
           (lit "export.json") false world0 (JArr [JStr (lit "docs")])).
  discriminate.
Defined.
